(** * RAiD search page (src/index.ts): a shallow embedding and its properties

    The page compiles a five-field search form into a DataCite query,
    sends it to the registered endpoints, renders the records with the
    search terms highlighted, and offers a batch download of the rendered
    records.  Every definition below follows one function or one local
    constant of [src/index.ts]; the line numbers in the comments are the
    lines of that file.

    Strings.  A JavaScript string is a sequence of UTF-16 code units.  The
    model uses [string], whose characters are the code units below 256
    (the Latin-1 range, ASCII included); on these [encodeURIComponent]
    never raises and the case folding of a case-insensitive regular
    expression is the table written out in [canonicalize]. *)

From Stdlib Require Import Strings.String Strings.Ascii Lists.List.
From Stdlib Require Import Arith.Arith NArith.NArith Bool.Bool Lia.
Import ListNotations.

Open Scope string_scope.

(** ** Completions: a value, or a thrown exception / rejected promise *)

Inductive exn : Type :=
| SyntaxError (message : string)
| TypeError (message : string)
| Error (message : string).

Inductive completion (A : Type) : Type :=
| Normal (value : A)
| Throw (reason : exn).

Arguments Normal {A} value.
Arguments Throw {A} reason.

Definition bind {A B : Type} (m : completion A) (k : A -> completion B)
  : completion B :=
  match m with
  | Normal v => k v
  | Throw e => Throw e
  end.

Declare Scope js_scope.
Delimit Scope js_scope with js.
Notation "x <- m ;; k" := (bind m (fun x => k))
  (at level 61, m at next level, right associativity) : js_scope.
Open Scope js_scope.

(** ** The string and array built-ins the page calls *)

Module JS.

(** The double quote, which a template literal of the page writes inside
    its text. *)
Definition dquote : ascii := ascii_of_nat 34.
Definition dq : string := String dquote EmptyString.

(** The line feed of a multi-line template literal. *)
Definition nl : string := String (ascii_of_nat 10) EmptyString.

(** [!!s] for a string [s]: only the empty string is falsy. *)
Definition truthy (s : string) : bool :=
  match s with
  | EmptyString => false
  | String _ _ => true
  end.

(** [a || b] on strings. *)
Definition orElse (a b : string) : string := if truthy a then a else b.

Definition chars (s : string) : list ascii := list_ascii_of_string s.

(** [s.includes(needle)]. *)
Fixpoint includes (needle s : string) : bool :=
  prefix needle s ||
  match s with
  | EmptyString => false
  | String _ s' => includes needle s'
  end.

(** [s.split(sep)] for a one-character separator: never an empty array. *)
Fixpoint split (sep : ascii) (s : string) : list string :=
  match s with
  | EmptyString => [EmptyString]
  | String c s' =>
      if Ascii.eqb c sep then EmptyString :: split sep s'
      else match split sep s' with
           | piece :: pieces => String c piece :: pieces
           | [] => [String c EmptyString]
           end
  end.

(** [arr.pop()]: the last element, [undefined] (here [None]) when there is
    none. *)
Fixpoint pop (arr : list string) : option string :=
  match arr with
  | [] => None
  | [x] => Some x
  | _ :: rest => pop rest
  end.

(** [arr.slice(-3)]: the last three elements, all of them when fewer. *)
Definition sliceLast3 (arr : list string) : list string :=
  skipn (List.length arr - 3) arr.

(** [s.slice(0, -3)]: all but the last three characters. *)
Definition dropLast3 (s : string) : string :=
  substring 0 (String.length s - 3) s.

(** [arr.join(sep)]. *)
Definition join (sep : string) (arr : list string) : string :=
  String.concat sep arr.

(** White space and line terminators below 256, as [trim] strips them. *)
Definition isWhiteSpace (c : ascii) : bool :=
  let n := N_of_ascii c in
  ((9 <=? n) && (n <=? 13) || (n =? 32) || (n =? 160))%N.

Fixpoint trimStart (s : string) : string :=
  match s with
  | EmptyString => EmptyString
  | String c s' => if isWhiteSpace c then trimStart s' else s
  end.

Fixpoint trimEnd (s : string) : string :=
  match s with
  | EmptyString => EmptyString
  | String c s' =>
      match trimEnd s' with
      | EmptyString => if isWhiteSpace c then EmptyString else String c EmptyString
      | t => String c t
      end
  end.

(** [s.trim()]. *)
Definition trim (s : string) : string := trimEnd (trimStart s).

(** *** encodeURIComponent *)

Definition inRange (lo hi : N) (c : ascii) : bool :=
  let n := N_of_ascii c in ((lo <=? n) && (n <=? hi))%N.

(** The characters [encodeURIComponent] leaves as they are:
    letters, digits and [- _ . ! ~ * ' ( )]. *)
Definition isUnreserved (c : ascii) : bool :=
  inRange 65 90 c || inRange 97 122 c || inRange 48 57 c ||
  existsb (Ascii.eqb c)
    ["-"; "_"; "."; "!"; "~"; "*"; "'"; "("; ")"]%char.

Definition hexDigit (n : N) : ascii :=
  if (n <? 10)%N then ascii_of_N (48 + n) else ascii_of_N (55 + n).

(** One UTF-8 octet as [%XX], upper-case hexadecimal. *)
Definition percent (octet : N) : string :=
  String "%" (String (hexDigit (octet / 16)) (String (hexDigit (octet mod 16)) EmptyString)).

(** A code unit below 128 is one octet; one from 128 to 255 is the two
    octets [110000xx 10xxxxxx]. *)
Definition encodeUnit (c : ascii) : string :=
  let n := N_of_ascii c in
  if isUnreserved c then String c EmptyString
  else if (n <? 128)%N then percent n
  else percent (192 + n / 64) ++ percent (128 + n mod 64).

Fixpoint encodeURIComponent (s : string) : string :=
  match s with
  | EmptyString => EmptyString
  | String c s' => encodeUnit c ++ encodeURIComponent s'
  end.

(** *** Regular expressions

    The page builds two regular expressions: the character class of line
    125 and, on line 126, a capturing group around the escaped query.  The
    model covers that fragment of the pattern grammar: a class of
    characters, or one capturing group around pattern characters and
    identity escapes. *)

Inductive Pattern : Type :=
| CharClass (members : list ascii)
| Capture (atoms : list ascii).

Record RegExp : Type := mkRegExp {
  pattern : Pattern;
  ignoreCase : bool
}.

(** The syntax characters of the pattern grammar. *)
Definition syntaxCharacters : list ascii :=
  ["^"; "$"; "\"; "."; "*"; "+"; "?"; "("; ")"; "["; "]"; "{"; "}"; "|"]%char.

Definition isSyntaxCharacter (c : ascii) : bool :=
  existsb (Ascii.eqb c) syntaxCharacters.

(** The atoms of a group up to its closing parenthesis, and the text from
    that parenthesis on.  [\c] with [c] a syntax character stands for [c];
    a bare syntax character, another escape or a missing [)] is outside
    the fragment. *)
Fixpoint parseAtoms (src : string) : option (list ascii * string) :=
  match src with
  | EmptyString => None
  | String c rest =>
      if Ascii.eqb c ")" then Some ([], rest)
      else if Ascii.eqb c "\" then
        match rest with
        | EmptyString => None
        | String d rest' =>
            if isSyntaxCharacter d then
              match parseAtoms rest' with
              | Some (atoms, tail) => Some (d :: atoms, tail)
              | None => None
              end
            else None
        end
      else if isSyntaxCharacter c then None
      else
        match parseAtoms rest with
        | Some (atoms, tail) => Some (c :: atoms, tail)
        | None => None
        end
  end.

(** [new RegExp(src, "gi")] for a source of the shape [(atoms)].  A source
    of another shape is not modelled and gets the answer of a malformed
    pattern; [highlightText] never builds one, since every syntax
    character of the query arrives escaped. *)
Definition newRegExp_gi (src : string) : completion RegExp :=
  match src with
  | String "(" body =>
      match parseAtoms body with
      | Some (atoms, EmptyString) => Normal (mkRegExp (Capture atoms) true)
      | _ => Throw (SyntaxError "Invalid regular expression")
      end
  | _ => Throw (SyntaxError "Invalid regular expression")
  end.

(** Canonicalize of a case-insensitive match without the [u] flag: the
    upper-case mapping of one code unit, kept when it is again one code
    unit.  Two code units match when they canonicalize alike. *)
Definition canonicalize (c : ascii) : N :=
  let n := N_of_ascii c in
  (if (97 <=? n) && (n <=? 122) then n - 32
   else if n =? 181 then 924
   else if (224 <=? n) && (n <=? 254) && negb (n =? 247) then n - 32
   else if n =? 255 then 376
   else n)%N.

Definition unitMatches (ic : bool) (a c : ascii) : bool :=
  if ic then (canonicalize a =? canonicalize c)%N else Ascii.eqb a c.

(** The atoms against the front of [s]: the matched text and what
    follows it. *)
Fixpoint matchAtoms (ic : bool) (atoms : list ascii) (s : string)
  : option (string * string) :=
  match atoms with
  | [] => Some (EmptyString, s)
  | a :: atoms' =>
      match s with
      | EmptyString => None
      | String c s' =>
          if unitMatches ic a c then
            match matchAtoms ic atoms' s' with
            | Some (m, r) => Some (String c m, r)
            | None => None
            end
          else None
      end
  end.

(** One match attempt at the front of [s]. *)
Definition matchAt (re : RegExp) (s : string) : option (string * string) :=
  match pattern re with
  | CharClass members =>
      match s with
      | EmptyString => None
      | String c s' =>
          if existsb (unitMatches (ignoreCase re) c) members
          then Some (String c EmptyString, s')
          else None
      end
  | Capture atoms => matchAtoms (ignoreCase re) atoms s
  end.

(** The captures of a match: none for a class, the whole match for the
    group. *)
Definition captures (re : RegExp) (matched : string) : list string :=
  match pattern re with
  | CharClass _ => []
  | Capture _ => [matched]
  end.

(** The replacement text of one match: [$&] is the match, [$1] the first
    capture when there is one, [$$] a dollar sign. *)
Fixpoint getSubstitution (matched : string) (caps : list string)
  (template : string) : string :=
  match template with
  | EmptyString => EmptyString
  | String c t =>
      if Ascii.eqb c "$" then
        match t with
        | EmptyString => String c EmptyString
        | String d t' =>
            if Ascii.eqb d "&" then matched ++ getSubstitution matched caps t'
            else if Ascii.eqb d "$" then String "$" (getSubstitution matched caps t')
            else if Ascii.eqb d "1" then
              match caps with
              | c1 :: _ => c1 ++ getSubstitution matched caps t'
              | [] => String c (getSubstitution matched caps t)
              end
            else String c (getSubstitution matched caps t)
        end
      else String c (getSubstitution matched caps t)
  end.

(** [s.replace(re, template)] for a global [re]: matches are taken from
    left to right, each search resuming where the last match ended (one
    code unit further after an empty match).  [skip] counts the code units
    of the last match that are still to be passed over. *)
Fixpoint replaceFrom (re : RegExp) (template : string) (skip : nat)
  (s : string) {struct s} : string :=
  match skip, s with
  | S k, String _ s' => replaceFrom re template k s'
  | S _, EmptyString => EmptyString
  | O, EmptyString =>
      match matchAt re s with
      | Some (m, _) => getSubstitution m (captures re m) template
      | None => EmptyString
      end
  | O, String c s' =>
      match matchAt re s with
      | Some (m, _) =>
          getSubstitution m (captures re m) template ++
          match String.length m with
          | O => String c (replaceFrom re template 0 s')
          | S k => replaceFrom re template k s'
          end
      | None => String c (replaceFrom re template 0 s')
      end
  end.

Definition replace (re : RegExp) (template : string) (s : string) : string :=
  replaceFrom re template 0 s.

End JS.

(** ** Highlight engine (lines 122-128) *)

(** The class of line 125: [/[.*+?^${}()|[\]\\]/g]. *)
Definition metaCharacters : JS.RegExp :=
  JS.mkRegExp
    (JS.CharClass
       ["."; "*"; "+"; "?"; "^"; "$"; "{"; "}"; "("; ")"; "|"; "["; "]"; "\"]%char)
    false.

Definition escapeQuery (query : string) : string :=
  JS.replace metaCharacters "\$&" query.

Definition highlightText (text query : string) : completion string :=
  if negb (JS.truthy query) then Normal text
  else
    let escapedQuery := escapeQuery query in
    regex <- JS.newRegExp_gi ("(" ++ escapedQuery ++ ")") ;;
    Normal (JS.replace regex "<mark>$1</mark>" text).

(** ** Data model (lines 4-73) *)

Record SearchCriteria : Type := mkSearchCriteria {
  title : string;
  description : string;
  creator : string;
  related : string;
  organisation : string
}.

Module NameIdentifier.
Record t : Type := mk {
  nameIdentifier : string;
  nameIdentifierScheme : option string
}.
End NameIdentifier.

Module Creator.
Record t : Type := mk {
  name : string;
  nameType : option string;
  givenName : option string;
  familyName : option string;
  nameIdentifiers : option (list NameIdentifier.t)
}.
End Creator.

Module RelatedIdentifier.
Record t : Type := mk {
  relatedIdentifier : string;
  relatedIdentifierType : option string;
  relationType : option string
}.
End RelatedIdentifier.

Module Contributor.
Record t : Type := mk {
  name : string;
  nameType : option string;
  givenName : option string;
  familyName : option string;
  nameIdentifiers : option (list NameIdentifier.t);
  contributorType : option string
}.
End Contributor.

Module Description.
Record t : Type := mk {
  description : string;
  descriptionType : option string;
  lang : option string
}.
End Description.

Module Title.
Record t : Type := mk {
  title : string;
  titleType : option string;
  lang : option string
}.
End Title.

Record Attributes : Type := mkAttributes {
  doi : string;
  titles : option (list Title.t);
  creators : option (list Creator.t);
  relatedIdentifiers : option (list RelatedIdentifier.t);
  contributors : option (list Contributor.t);
  descriptions : option (list Description.t)
}.

Record Item : Type := mkItem {
  id : option string;
  type_ : option string;
  attributes : Attributes
}.

Record ApiResponse : Type := mkApiResponse {
  data : list Item
}.

(** [Object.values(searchCriteria)]: the five fields in declaration order. *)
Definition values (c : SearchCriteria) : list string :=
  [title c; description c; creator c; related c; organisation c].

(** ** The network

    [respond url] is what [fetch(url)] followed by [response.json()]
    settles to, [blob url] what [fetch(url)] followed by [response.blob()]
    settles to. *)

Record Network : Type := mkNetwork {
  respond : string -> completion ApiResponse;
  blob : string -> completion string
}.

(** What a function of the page does to the outside, in order. *)
Inductive Effect : Type :=
| Request (url : string)
| Download (url : string) (fileName : string)
| ConsoleError (message : string)
| Alert (message : string).

(** ** Query compiler and single-endpoint search (lines 137-191) *)

(** [if (cond) queryParts.push(part)]. *)
Definition pushIf (cond : bool) (part : string) (parts : list string)
  : list string :=
  if cond then parts ++ [part] else parts.

Definition queryParts (searchCriteria : SearchCriteria) : list string :=
  let parts := [] in
  let parts :=
    pushIf (JS.truthy (title searchCriteria))
      ("titles.title:*" ++ JS.encodeURIComponent (title searchCriteria) ++ "*")
      parts in
  let parts :=
    pushIf (JS.truthy (description searchCriteria))
      ("descriptions.description:*"
         ++ JS.encodeURIComponent (description searchCriteria) ++ "*")
      parts in
  let parts :=
    pushIf (JS.truthy (creator searchCriteria))
      ("creators.name:" ++ JS.dq
         ++ JS.encodeURIComponent (creator searchCriteria) ++ JS.dq)
      parts in
  let parts :=
    pushIf (JS.truthy (related searchCriteria))
      ("relatedIdentifiers.relatedIdentifier:" ++ JS.dq
         ++ JS.encodeURIComponent (related searchCriteria) ++ JS.dq)
      parts in
  let parts :=
    pushIf (JS.truthy (organisation searchCriteria))
      ("contributors.nameIdentifiers.nameIdentifier:" ++ JS.dq
         ++ JS.encodeURIComponent (organisation searchCriteria) ++ JS.dq)
      parts in
  parts.

Definition queryString (searchCriteria : SearchCriteria) (operator : string)
  : string :=
  "(identifiers.identifier:*raid.org.au* AND ("
    ++ JS.join (" " ++ operator ++ " ") (queryParts searchCriteria) ++ "))".

Definition requestUrl (apiUrl : string) (searchCriteria : SearchCriteria)
  (operator : string) : string :=
  apiUrl ++ "?query=" ++ queryString searchCriteria operator
    ++ "&page[size]=10000".

(** The settled promise and the requests issued on the way. *)
Definition searchSingleApi (net : Network) (apiUrl : string)
  (searchCriteria : SearchCriteria) (operator : string)
  : completion ApiResponse * list Effect :=
  if Nat.eqb (List.length (queryParts searchCriteria)) 0 then
    (Normal (mkApiResponse []), [])
  else
    let url := requestUrl apiUrl searchCriteria operator in
    (respond net url, [Request url]).

(** ** Fan-out over the endpoints (lines 199-225) *)

Definition hasAtLeastOneQuery (searchCriteria : SearchCriteria) : bool :=
  existsb (fun value => negb (String.eqb (JS.trim value) EmptyString))
    (values searchCriteria).

(** The reducer of lines 217-222, for fulfilled outcomes of the declared
    type, whose [data] is an array ([Untyped.combine] is the reducer for
    any body). *)
Definition combine (acc : list Item) (result : completion ApiResponse)
  : list Item :=
  match result with
  | Normal value => acc ++ data value
  | Throw _ => acc
  end.

(** The endpoint list of line 211. *)
Definition apis : list string := ["https://api.datacite.org/dois"].

(** [Promise.allSettled] hands back one outcome per promise, in the order
    of the promises it was given.  Here and in [searchSingleApi] a
    fulfilled request carries a body of the declared type [ApiResponse];
    [Untyped.searchDois] below is the function for any body. *)
Definition searchDois (net : Network) (searchCriteria : SearchCriteria)
  (operator : string) : completion ApiResponse * list Effect :=
  if negb (hasAtLeastOneQuery searchCriteria) then
    (Throw (Error "At least one search criterion is required"), [])
  else
    let promises :=
      map (fun api => searchSingleApi net api searchCriteria operator) apis in
    let results := map fst promises in
    let combinedData := fold_left combine results [] in
    (Normal (mkApiResponse combinedData), concat (map snd promises)).

(** *** Completion order, as the specification words the merge

    [settledAt api] is the moment the request to [api] settles; the
    endpoints in completion order are the endpoints sorted by it. *)

Fixpoint insertBy (key : string -> nat) (x : string) (l : list string)
  : list string :=
  match l with
  | [] => [x]
  | y :: l' => if Nat.ltb (key x) (key y) then x :: l else y :: insertBy key x l'
  end.

Definition completionOrder (settledAt : string -> nat) (endpoints : list string)
  : list string :=
  fold_left (fun sorted api => insertBy settledAt api sorted) endpoints [].

(** ** Result projection (lines 233-333) *)

Record HTMLElement : Type := mkHTMLElement {
  className : string;
  innerHTML : string
}.

(** [arr.map(f)] for an [f] that may throw: the first exception ends it. *)
Fixpoint mapM {A B : Type} (f : A -> completion B) (l : list A)
  : completion (list B) :=
  match l with
  | [] => Normal []
  | x :: l' =>
      y <- f x ;;
      ys <- mapM f l' ;;
      Normal (y :: ys)
  end.

(** A [for ... of] loop that updates one variable. *)
Fixpoint forOf {A S : Type} (body : S -> A -> completion S) (l : list A)
  (s : S) : completion S :=
  match l with
  | [] => Normal s
  | x :: l' =>
      s' <- body s x ;;
      forOf body l' s'
  end.

(** [criterion ? highlightText(text, criterion) : text]. *)
Definition highlightIf (criterion text : string) : completion string :=
  if JS.truthy criterion then highlightText text criterion else Normal text.

(** [<a href="target" target="_blank">shown</a> & ]. *)
Definition anchor (target shown : string) : string :=
  "<a href=" ++ JS.dq ++ target ++ JS.dq ++ " target=" ++ JS.dq ++ "_blank"
    ++ JS.dq ++ ">" ++ shown ++ "</a>".

Definition titlesLine (attrs : Attributes) (searchCriteria : SearchCriteria)
  : completion string :=
  match titles attrs with
  | None => Normal "No Title"
  | Some ts =>
      shown <- mapM (fun t => highlightIf (title searchCriteria) (Title.title t)) ts ;;
      Normal (JS.orElse (JS.join " | " (filter JS.truthy shown)) "No Title")
  end.

Definition doiLink (attrs : Attributes) (searchCriteria : SearchCriteria)
  : completion string :=
  if JS.truthy (doi attrs) then
    shown <- highlightIf (related searchCriteria) (doi attrs) ;;
    Normal (anchor ("https://raid.org/" ++ doi attrs) shown)
  else Normal "No DOI".

Definition creatorsLinks (attrs : Attributes) (searchCriteria : SearchCriteria)
  : completion string :=
  match creators attrs with
  | Some (c :: cs) =>
      links <-
        forOf
          (fun links aCreator =>
             highlightedName <-
               highlightIf (creator searchCriteria) (Creator.name aCreator) ;;
             Normal (links ++ anchor (Creator.name aCreator) highlightedName ++ " & "))
          (c :: cs) EmptyString ;;
      Normal (JS.dropLast3 links)
  | _ => Normal EmptyString
  end.

Definition relatedIdentifiersLinks (attrs : Attributes)
  (searchCriteria : SearchCriteria) : completion string :=
  match relatedIdentifiers attrs with
  | Some (r :: rs) =>
      links <-
        forOf
          (fun links relatedId =>
             highlightedId <-
               highlightIf (related searchCriteria)
                 (RelatedIdentifier.relatedIdentifier relatedId) ;;
             Normal (links
                       ++ anchor (RelatedIdentifier.relatedIdentifier relatedId)
                            highlightedId ++ " & "))
          (r :: rs) EmptyString ;;
      Normal (JS.dropLast3 links)
  | _ => Normal EmptyString
  end.

(** The body of the inner loop, lines 293-305. *)
Definition organisationStep (searchCriteria : SearchCriteria) (links : string)
  (nameId : NameIdentifier.t) : completion string :=
  let value := NameIdentifier.nameIdentifier nameId in
  if JS.truthy value && JS.includes "ror.org" value then
    let rorId :=
      match JS.pop (JS.split "/" value) with
      | Some segment => JS.orElse segment EmptyString
      | None => EmptyString
      end in
    highlightedName <- highlightIf (organisation searchCriteria) value ;;
    Normal (links ++ anchor ("https://ror.org/" ++ rorId) highlightedName ++ " & ")
  else Normal links.

(** The body of the outer loop, lines 288-307. *)
Definition contributorStep (searchCriteria : SearchCriteria) (links : string)
  (contributor : Contributor.t) : completion string :=
  match Contributor.nameIdentifiers contributor with
  | Some (n :: ns) => forOf (organisationStep searchCriteria) (n :: ns) links
  | _ => Normal links
  end.

Definition organisationsLinks (attrs : Attributes)
  (searchCriteria : SearchCriteria) : completion string :=
  match contributors attrs with
  | Some (c :: cs) =>
      links <- forOf (contributorStep searchCriteria) (c :: cs) EmptyString ;;
      Normal (if JS.truthy links then JS.dropLast3 links else EmptyString)
  | _ => Normal EmptyString
  end.

(** What the "Organisations:" paragraph of line 328 shows. *)
Definition organisationsShown (attrs : Attributes)
  (searchCriteria : SearchCriteria) : completion string :=
  links <- organisationsLinks attrs searchCriteria ;;
  Normal (JS.orElse links "No organisations").

(** [attributes?.descriptions?.[0]?.description || "No Description"]. *)
Definition firstDescription (attrs : Attributes) : string :=
  match descriptions attrs with
  | Some (d :: _) => JS.orElse (Description.description d) "No Description"
  | _ => "No Description"
  end.

Definition descriptionLine (attrs : Attributes)
  (searchCriteria : SearchCriteria) : completion string :=
  if JS.truthy (description searchCriteria) then
    highlightText (firstDescription attrs) (description searchCriteria)
  else Normal (firstDescription attrs).

Definition createResultElement (item : Item) (searchCriteria : SearchCriteria)
  : completion HTMLElement :=
  let attrs := attributes item in
  titles <- titlesLine attrs searchCriteria ;;
  doiLink <- doiLink attrs searchCriteria ;;
  creatorsLinks <- creatorsLinks attrs searchCriteria ;;
  relatedIdentifiersLinks <- relatedIdentifiersLinks attrs searchCriteria ;;
  organisationsLinks <- organisationsLinks attrs searchCriteria ;;
  description <- descriptionLine attrs searchCriteria ;;
  Normal
    (mkHTMLElement "search-result"
       (JS.nl ++ "      <h3>" ++ titles ++ "</h3>"
        ++ JS.nl ++ "      <p>RAiD: " ++ doiLink ++ "</p>"
        ++ JS.nl ++ "      <p>Creators: "
        ++ JS.orElse creatorsLinks "No creators" ++ "</p>"
        ++ JS.nl ++ "      <p>Related Identifiers: "
        ++ JS.orElse relatedIdentifiersLinks "No related identifiers" ++ "</p>"
        ++ JS.nl ++ "      <p>Organisations: "
        ++ JS.orElse organisationsLinks "No organisations" ++ "</p>"
        ++ JS.nl ++ "      <p>Description: " ++ description ++ "</p>"
        ++ JS.nl ++ "  ")).

(** ** Endpoints that answer with any body (lines 189-190 and 213-224)

    [fetch] fulfils for every HTTP answer and [response.json()] for every
    JSON body; the cast of line 190 checks nothing.  So the value of a
    fulfilled outcome need not have a [data] array, and the spread
    [...result.value.data] of line 219 throws a [TypeError] when it has
    none.  This module has [searchSingleApi] and [searchDois] for such
    endpoints. *)

Module Untyped.

(** A parsed body as far as line 219 reads it: the elements of its [data]
    member when that is an array, [None] when the body has no [data]
    member or one that cannot be spread. *)
Record Body : Type := mkBody {
  data : option (list Item)
}.

(** [respond url] is what [fetch(url)] followed by [response.json()]
    settles to. *)
Record Network : Type := mkNetwork {
  respond : string -> completion Body
}.

Definition searchSingleApi (net : Network) (apiUrl : string)
  (searchCriteria : SearchCriteria) (operator : string)
  : completion Body * list Effect :=
  if Nat.eqb (List.length (queryParts searchCriteria)) 0 then
    (Normal (mkBody (Some [])), [])
  else
    let url := requestUrl apiUrl searchCriteria operator in
    (respond net url, [Request url]).

(** The reducer of lines 217-222. *)
Definition combine (acc : list Item) (result : completion Body)
  : completion (list Item) :=
  match result with
  | Normal value =>
      match data value with
      | Some items => Normal (acc ++ items)%list
      | None => Throw (TypeError "result.value.data is not iterable")
      end
  | Throw _ => Normal acc
  end.

(** The requests are out when the reducer runs: an exception of the
    reducer rejects the promise of [searchDois] and leaves them sent. *)
Definition searchDois (net : Network) (searchCriteria : SearchCriteria)
  (operator : string) : completion ApiResponse * list Effect :=
  if negb (hasAtLeastOneQuery searchCriteria) then
    (Throw (Error "At least one search criterion is required"), [])
  else
    let promises :=
      map (fun api => searchSingleApi net api searchCriteria operator) apis in
    let results := map fst promises in
    (combinedData <- forOf combine results [] ;;
     Normal (mkApiResponse combinedData),
     concat (map snd promises)).

End Untyped.

(** A network that answers at the declared type, seen as one that could
    answer anything. *)
Definition declaredShape (net : Network) : Untyped.Network :=
  Untyped.mkNetwork
    (fun url =>
       match respond net url with
       | Normal response => Normal (Untyped.mkBody (Some (data response)))
       | Throw e => Throw e
       end).

(** ** The page: its result container and the set of files to download

    [filesToDownload] (line 76) is a [Set<string>]: it keeps its elements
    in insertion order and [add] of an element already there changes
    nothing.  It is modelled as the list of its elements in that order. *)

Inductive Node : Type :=
| Markup (html : string)
| Button (id innerText : string) (onClick : bool)
| Result (element : HTMLElement).

Record Page : Type := mkPage {
  filesToDownload : list string;
  container : option (list Node)
}.

(** [set.has(x)] and [set.add(x)]. *)
Definition setHas (x : string) (set : list string) : bool :=
  existsb (String.eqb x) set.

Definition setAdd (x : string) (set : list string) : list string :=
  if setHas x set then set else set ++ [x].

(** The template of lines 360-362. *)
Definition artifactUrl (doi : string) : string :=
  "https://static.prod.raid.org.au/raids/" ++ doi ++ ".download/".

(** ** Batch download (lines 82-114) *)

(** [`${x}`] for a value that may be [undefined]. *)
Definition interpolate (x : option string) : string :=
  match x with
  | Some s => s
  | None => "undefined"
  end.

(** One turn of the loop: nothing for an empty URL; a [TypeError] caught
    and logged when the URL has no second part to split; a failed fetch
    caught and logged; otherwise the save under the chosen name. *)
Definition downloadOne (net : Network) (url : string) : list Effect :=
  if negb (JS.truthy url) then []
  else
    let urlParts := JS.split "/" url in
    let lastThreeParts := JS.sliceLast3 urlParts in
    let prefix := nth_error lastThreeParts 0 in
    match nth_error lastThreeParts 1 with
    | None => [ConsoleError ("Error downloading file " ++ url ++ ":")]
    | Some suffixWithDot =>
        let suffix := nth_error (JS.split "." suffixWithDot) 0 in
        match blob net url with
        | Throw _ =>
            [Request url; ConsoleError ("Error downloading file " ++ url ++ ":")]
        | Normal _ =>
            let fallback :=
              "raid-" ++ interpolate prefix ++ "-" ++ interpolate suffix
                ++ ".json" in
            let download :=
              match JS.pop (JS.split "/" url) with
              | Some segment => JS.orElse segment fallback
              | None => fallback
              end in
            [Request url; Download url download]
        end
    end.

Definition downloadFiles (net : Network) (urls : list string) : list Effect :=
  flat_map (downloadOne net) urls.

(** ** Rendering (lines 341-368) *)

(** The [forEach] of lines 358-363 over the container's children and the
    set; an exception leaves both as they are at that point. *)
Fixpoint renderItems (searchCriteria : SearchCriteria) (items : list Item)
  (nodes : list Node) (files : list string)
  : completion unit * list Node * list string :=
  match items with
  | [] => (Normal tt, nodes, files)
  | item :: items' =>
      match createResultElement item searchCriteria with
      | Throw e => (Throw e, nodes, files)
      | Normal element =>
          renderItems searchCriteria items'
            (nodes ++ [Result element])
            (setAdd (artifactUrl (doi (attributes item))) files)
      end
  end.

(** The listener of line 365 is attached once the loop is through. *)
Definition armButton (n : Node) : Node :=
  match n with
  | Button id innerText _ => Button id innerText true
  | other => other
  end.

Definition renderResults (files : list string) (response : ApiResponse)
  (searchCriteria : SearchCriteria)
  : completion unit * list Node * list string :=
  match data response with
  | [] => (Normal tt, [Markup "<p>No results found</p>"], files)
  | items =>
      let downloadButton := Button "download-results" "Download Results" false in
      match renderItems searchCriteria items [downloadButton] files with
      | (Normal _, nodes, files') => (Normal tt, map armButton nodes, files')
      | thrown => thrown
      end
  end.

(** ** The search action (lines 374-425) *)

Definition hasAtLeastOneCriterion (searchCriteria : SearchCriteria) : bool :=
  existsb (fun value => negb (String.eqb (JS.trim value) EmptyString))
    (values searchCriteria).

Definition errorMarkup : list Node :=
  [Markup "<p>Error fetching results. Please try again.</p>"].

(** [searchCriteria] and [operator] are what the form holds when the
    action runs. *)
Definition performSearch (net : Network) (page : Page)
  (searchCriteria : SearchCriteria) (operator : string) : Page * list Effect :=
  match container page with
  | None => (page, [ConsoleError "Results container not found"])
  | Some _ =>
      if negb (hasAtLeastOneCriterion searchCriteria) then
        (page, [Alert "Please enter at least one search term"])
      else
        match searchDois net searchCriteria operator with
        | (Throw _, requests) =>
            (mkPage (filesToDownload page) (Some errorMarkup),
             (requests ++ [ConsoleError "Error:"])%list)
        | (Normal response, requests) =>
            match renderResults (filesToDownload page) response searchCriteria with
            | (Normal _, nodes, files) => (mkPage files (Some nodes), requests)
            | (Throw _, _, files) =>
                (mkPage files (Some errorMarkup),
                 (requests ++ [ConsoleError "Error:"])%list)
            end
        end
  end.

(** ** A session: submitted searches and clicks on the download button *)

Inductive Event : Type :=
| Submit (net : Network) (searchCriteria : SearchCriteria) (operator : string)
| ClickDownload (net : Network).

Definition hasArmedButton (nodes : list Node) : bool :=
  existsb (fun n => match n with Button _ _ true => true | _ => false end) nodes.

Definition step (page : Page) (e : Event) : Page * list Effect :=
  match e with
  | Submit net searchCriteria operator =>
      performSearch net page searchCriteria operator
  | ClickDownload net =>
      match container page with
      | Some nodes =>
          if hasArmedButton nodes
          then (page, downloadFiles net (filesToDownload page))
          else (page, [])
      | None => (page, [])
      end
  end.

Fixpoint run (page : Page) (events : list Event) : Page * list Effect :=
  match events with
  | [] => (page, [])
  | e :: events' =>
      let (page', effects) := step page e in
      let (page'', effects') := run page' events' in
      (page'', (effects ++ effects')%list)
  end.

(** The page as the script leaves it when it has loaded. *)
Definition initialPage : Page := mkPage [] (Some []).

(** ** The form (lines 387-408 and 447-459)

    The input elements of the document, in document order, each with its
    id and its value; [getElementById] finds the first element with the
    id. *)

Definition Inputs : Type := list (string * string).

(** [document.getElementById(id)?.value]. *)
Fixpoint getValue (id : string) (inputs : Inputs) : option string :=
  match inputs with
  | [] => None
  | (id', value) :: rest =>
      if String.eqb id' id then Some value else getValue id rest
  end.

(** The value sanitization of a text input: line feeds and carriage
    returns are removed from a value a script assigns. *)
Definition isLineBreak (c : ascii) : bool :=
  let n := N_of_ascii c in ((n =? 10) || (n =? 13))%N.

Fixpoint stripNewlines (s : string) : string :=
  match s with
  | EmptyString => EmptyString
  | String c s' =>
      if isLineBreak c then stripNewlines s' else String c (stripNewlines s')
  end.

(** Modelled from the spec: the page's HTML, which declares the inputs, is
    not under src/; the spec has the form hold five text inputs.
    [document.getElementById(id).value = value] on a text input stores
    the sanitized value. *)
Fixpoint setValue (id value : string) (inputs : Inputs) : Inputs :=
  match inputs with
  | [] => []
  | (id', old) :: rest =>
      if String.eqb id' id then (id', stripNewlines value) :: rest
      else (id', old) :: setValue id value rest
  end.

(** [(document.getElementById(id) as HTMLInputElement)?.value || ""]. *)
Definition readField (inputs : Inputs) (id : string) : string :=
  match getValue id inputs with
  | Some value => JS.orElse value EmptyString
  | None => EmptyString
  end.

(** The object of lines 387-403. *)
Definition readCriteria (inputs : Inputs) : SearchCriteria :=
  mkSearchCriteria
    (readField inputs "title-search")
    (readField inputs "description-search")
    (readField inputs "creator-search")
    (readField inputs "related-search")
    (readField inputs "organisation-search").

(** [operatorElement?.value || "AND"], for the checked radio button if
    there is one. *)
Definition readOperator (checked : option string) : string :=
  match checked with
  | Some value => JS.orElse value "AND"
  | None => "AND"
  end.

(** [performSearch] as the listener of the form runs it. *)
Definition submit (inputs : Inputs) (checked : option string) (net : Network)
  (page : Page) : Page * list Effect :=
  performSearch net page (readCriteria inputs) (readOperator checked).

(** The click listener of an example button (lines 450-458), for the
    button's [data-field] attribute and its text content. *)
Definition exampleClick (dataField textContent : option string)
  (inputs : Inputs) : Inputs :=
  match dataField with
  | Some fieldId =>
      if JS.truthy fieldId then
        match getValue fieldId inputs with
        | Some _ =>
            let text :=
              match textContent with
              | Some t => JS.orElse (JS.trim t) EmptyString
              | None => EmptyString
              end in
            setValue fieldId text inputs
        | None => inputs
        end
      else inputs
  | None => inputs
  end.

(** The five inputs of the form, empty. *)
Definition emptyForm : Inputs :=
  [("title-search", EmptyString); ("description-search", EmptyString);
   ("creator-search", EmptyString); ("related-search", EmptyString);
   ("organisation-search", EmptyString)].

(** The ids of the five inputs that [performSearch] reads. *)
Definition criteriaFields : list string :=
  ["title-search"; "description-search"; "creator-search"; "related-search";
   "organisation-search"].

(** ** What the specification says, in its own words

    These definitions are not taken from the source: they state what the
    claims below compare the source with. *)

(** A blank string: empty, or white space only. *)
Definition blank (s : string) : Prop :=
  forall c, In c (JS.chars s) -> JS.isWhiteSpace c = true.

(** The same text up to letter case. *)
Definition sameIgnoringCase (m q : string) : Prop :=
  map JS.canonicalize (JS.chars m) = map JS.canonicalize (JS.chars q).

(** [out] is [text] with the occurrences of [query] marked: going from
    left to right, an occurrence is wrapped as it stands in the text and
    the scan goes on behind it; a character at which no occurrence starts
    is copied. *)
Inductive Highlighted (query : string) : string -> string -> Prop :=
| hl_end : Highlighted query EmptyString EmptyString
| hl_mark m rest out :
    sameIgnoringCase m query ->
    Highlighted query rest out ->
    Highlighted query (m ++ rest) ("<mark>" ++ m ++ "</mark>" ++ out)
| hl_copy c rest out :
    (forall m r, String c rest = m ++ r -> ~ sameIgnoringCase m query) ->
    Highlighted query rest out ->
    Highlighted query (String c rest) (String c out).

(** A query with every metacharacter of line 125 preceded by a
    backslash. *)
Definition isMetaCharacter (c : ascii) : bool :=
  existsb (Ascii.eqb c)
    ["."; "*"; "+"; "?"; "^"; "$"; "{"; "}"; "("; ")"; "|"; "["; "]"; "\"]%char.

Fixpoint escapeLiteral (query : string) : string :=
  match query with
  | EmptyString => EmptyString
  | String c q =>
      if isMetaCharacter c then String "\" (String c (escapeLiteral q))
      else String c (escapeLiteral q)
  end.

(** The regular expression that matches [query] literally, in any letter
    case. *)
Definition literally (query : string) : JS.RegExp :=
  JS.mkRegExp (JS.Capture (JS.chars query)) true.

(** An endpoint succeeds when its request fulfils with a body that has a
    [data] array, and fails otherwise: its request is rejected, or the
    body it answers is malformed. *)
Definition succeeded (outcome : completion Untyped.Body) : option (list Item) :=
  match outcome with
  | Normal body => Untyped.data body
  | Throw _ => None
  end.

(** The data of the endpoints that succeeded, in the order of their
    outcomes. *)
Definition successes (outcomes : list (completion Untyped.Body)) : list Item :=
  flat_map
    (fun outcome =>
       match succeeded outcome with
       | Some items => items
       | None => []
       end)
    outcomes.

(** An outcome the code is written for: a rejected request, or a body of
    the declared shape. *)
Definition asDeclared (outcome : completion Untyped.Body) : Prop :=
  match outcome with
  | Normal body => Untyped.data body <> None
  | Throw _ => True
  end.

(** The outcomes of the requests of a search, for the endpoints in a
    given order. *)
Definition outcomesIn (net : Untyped.Network) (c : SearchCriteria)
  (operator : string) (order : list string) : list (completion Untyped.Body) :=
  map (fun api => Untyped.respond net (requestUrl api c operator)) order.

(** An endpoint that answers every request with an error document: a
    JSON body without [data]. *)
Definition errorDocument : Untyped.Network :=
  Untyped.mkNetwork (fun _ => Normal (Untyped.mkBody None)).

(** An endpoint whose requests are all rejected. *)
Definition unreachable : Untyped.Network :=
  Untyped.mkNetwork (fun _ => Throw (TypeError "Failed to fetch")).

(** The text behind the last slash (all of it when there is none). *)
Fixpoint finalSegment (s : string) : string :=
  match s with
  | EmptyString => EmptyString
  | String c s' =>
      if JS.includes "/" s' then finalSegment s'
      else if Ascii.eqb c "/" then s' else s
  end.

(** The text before the first dot (all of it when there is none). *)
Fixpoint upToFirstDot (s : string) : string :=
  match s with
  | EmptyString => EmptyString
  | String c s' =>
      if Ascii.eqb c "." then EmptyString else String c (upToFirstDot s')
  end.

(** The clause shapes of the query language. *)
Definition wildcard (field value : string) : string :=
  field ++ ":*" ++ value ++ "*".

Definition phrase (field value : string) : string :=
  field ++ ":" ++ JS.dq ++ value ++ JS.dq.

(** One clause for each field that [wanted] accepts, in field order, its
    value percent-encoded; no clause for the others. *)
Definition clauses (wanted : string -> bool) (c : SearchCriteria)
  : list string :=
  flat_map
    (fun entry : (string -> string) * string =>
       let (shape, value) := entry in
       if wanted value then [shape (JS.encodeURIComponent value)] else [])
    [(wildcard "titles.title", title c);
     (wildcard "descriptions.description", description c);
     (phrase "creators.name", creator c);
     (phrase "relatedIdentifiers.relatedIdentifier", related c);
     (phrase "contributors.nameIdentifiers.nameIdentifier", organisation c)].

(** The clauses joined by the operator, conjoined with the namespace
    filter and wrapped in parentheses. *)
Definition compiled (wanted : string -> bool) (c : SearchCriteria)
  (operator : string) : string :=
  "(" ++ "identifiers.identifier:*raid.org.au*" ++ " AND " ++ "("
    ++ JS.join (" " ++ operator ++ " ") (clauses wanted c) ++ ")" ++ ")".

Definition notBlank (s : string) : bool :=
  negb (String.eqb (JS.trim s) EmptyString).

(** The characters a percent-encoded value is written with. *)
Definition isEncoded (c : ascii) : bool :=
  JS.isUnreserved c || Ascii.eqb c "%".

(** A search with a white-space title and a creator. *)
Definition blankTitleCriteria : SearchCriteria :=
  mkSearchCriteria " " EmptyString "x" EmptyString EmptyString.

Definition noCriteria : SearchCriteria :=
  mkSearchCriteria EmptyString EmptyString EmptyString EmptyString EmptyString.


(** A record that carries nothing but its DOI. *)
Definition bareItem (doi : string) : Item :=
  mkItem None None (mkAttributes doi None None None None None).

(** A backend with an answer for every request. *)
Definition twoBackends : Network :=
  mkNetwork
    (fun url =>
       if prefix "https://a.example/dois" url
       then Normal (mkApiResponse [bareItem "10.1/a"])
       else Normal (mkApiResponse [bareItem "10.2/b"]))
    (fun _ => Throw (Error "not a file")).

(** A backend that answers nothing. *)
Definition deadNetwork : Network :=
  mkNetwork (fun _ => Throw (TypeError "Failed to fetch"))
    (fun _ => Throw (TypeError "Failed to fetch")).


(** Every name identifier of every contributor of a record, in order. *)
Definition nameIdentifierValues (attrs : Attributes) : list string :=
  match contributors attrs with
  | None => []
  | Some cs =>
      flat_map
        (fun contributor =>
           match Contributor.nameIdentifiers contributor with
           | None => []
           | Some ns => map NameIdentifier.nameIdentifier ns
           end)
        cs
  end.

(** Those that name an organisation of the registry. *)
Definition organisationIdentifiers (attrs : Attributes) : list string :=
  filter (JS.includes "ror.org") (nameIdentifierValues attrs).

(** Links, each followed by the separator. *)
Fixpoint trail (link : string -> string) (ids : list string) : string :=
  match ids with
  | [] => EmptyString
  | v :: rest => link v ++ " & " ++ trail link rest
  end.

(** A text with the occurrences of a criterion marked, when there is a
    criterion. *)
Definition highlighted (criterion text : string) : string :=
  if JS.truthy criterion
  then JS.replace (literally criterion) "<mark>$1</mark>" text
  else text.

(** A record whose one contributor has a person and an organisation
    identifier. *)
Definition twoIdentifiers : Attributes :=
  mkAttributes "10.1234/abc" None None None
    (Some
       [Contributor.mk "University" None None None
          (Some
             [NameIdentifier.mk "https://orcid.org/0000-0002-1825-0097" None;
              NameIdentifier.mk "https://ror.org/0123abcd" None])
          None])
    None.

Definition describedBy (text : string) : SearchCriteria :=
  mkSearchCriteria EmptyString text EmptyString EmptyString EmptyString.


(** The artifact URLs of the records of a response, one per record. *)
Definition artifactUrls (response : ApiResponse) : list string :=
  map (fun item => artifactUrl (doi (attributes item))) (data response).

(** A set after [add] of each URL in turn. *)
Definition addAll (urls : list string) (set : list string) : list string :=
  fold_left (fun set url => setAdd url set) urls set.

(** One backend with two records, one of them listed twice. *)
Definition threeRecords : Network :=
  mkNetwork
    (fun _ =>
       Normal
         (mkApiResponse
            [bareItem "10.1234/abc"; bareItem "10.1234/def"; bareItem "10.1234/abc"]))
    (fun _ => Normal "{}").


(** The set [after] is the set [before] followed by artifact URLs. *)
Definition Grows (before after : list string) : Prop :=
  exists added,
    after = (before ++ added)%list
    /\ forall u, In u added -> exists doi, u = artifactUrl doi.

(** The link of one organisation identifier: to the registry entry named
    by the text behind the last slash, showing the whole identifier. *)
Definition organisationLink (searchCriteria : SearchCriteria) (value : string)
  : string :=
  anchor ("https://ror.org/" ++ finalSegment value)
    (highlighted (organisation searchCriteria) value).

(** Case analysis on the 256 characters. *)
Ltac by_cases_on_ascii c :=
  destruct c as [[] [] [] [] [] [] [] []]; vm_compute; auto; try discriminate.

(** *** Notions for the further properties *)

(** [query] occurs in [text], in some letter case. *)
Definition occursIn (query text : string) : Prop :=
  exists before m after,
    text = before ++ m ++ after /\ sameIgnoringCase m query.

(** The names of the creators, the related identifiers and the titles of
    a record, in order; none when the record has no such list. *)
Definition creatorNames (attrs : Attributes) : list string :=
  match creators attrs with
  | Some cs => map Creator.name cs
  | None => []
  end.

Definition relatedValues (attrs : Attributes) : list string :=
  match relatedIdentifiers attrs with
  | Some rs => map RelatedIdentifier.relatedIdentifier rs
  | None => []
  end.

Definition titleTexts (attrs : Attributes) : list string :=
  match titles attrs with
  | Some ts => map Title.title ts
  | None => []
  end.

(** The URLs requested and the files saved, read off a list of effects. *)
Definition requestsOf (effects : list Effect) : list string :=
  flat_map (fun e => match e with Request url => [url] | _ => [] end) effects.

Definition savedOf (effects : list Effect) : list (string * string) :=
  flat_map
    (fun e => match e with Download url name => [(url, name)] | _ => [] end)
    effects.

(** A URL the download loop sends a request for: not empty, and with a
    slash. *)
Definition fetchable (url : string) : bool :=
  JS.truthy url && JS.includes "/" url.

(** A network whose files all arrive. *)
Definition filesArrive : Network :=
  mkNetwork (fun _ => Throw (TypeError "Failed to fetch"))
    (fun _ => Normal "{}").


(** The links of a list of values joined by " & ", or a placeholder when
    there is none. *)
Definition linksOr (placeholder : string) (links : list string) : string :=
  match links with
  | [] => placeholder
  | _ => JS.join " & " links
  end.

(** The markup of one result, lines 321-330. *)
Definition resultMarkup (titles doiLink creators related organisations
  description : string) : string :=
  JS.nl ++ "      <h3>" ++ titles ++ "</h3>"
  ++ JS.nl ++ "      <p>RAiD: " ++ doiLink ++ "</p>"
  ++ JS.nl ++ "      <p>Creators: " ++ creators ++ "</p>"
  ++ JS.nl ++ "      <p>Related Identifiers: " ++ related ++ "</p>"
  ++ JS.nl ++ "      <p>Organisations: " ++ organisations ++ "</p>"
  ++ JS.nl ++ "      <p>Description: " ++ description ++ "</p>"
  ++ JS.nl ++ "  ".


(** Whether the file behind a URL arrives. *)
Definition arrives (net : Network) (url : string) : bool :=
  match blob net url with
  | Normal _ => true
  | Throw _ => false
  end.

(** What an endpoint's answer counts as: its response, or no records when
    the request fails. *)
Definition answerOf (outcome : completion ApiResponse) : ApiResponse :=
  match outcome with
  | Normal response => response
  | Throw _ => mkApiResponse []
  end.

(** A page that shows a list of results. *)
Definition resultsPage : Page :=
  mkPage [artifactUrl "10.1234/abc"]
    (Some [Button "download-results" "Download Results" true]).


(** Every URL of the set is the artifact URL of some DOI. *)
Definition AllArtifacts (set : list string) : Prop :=
  forall u, In u set -> exists doi, u = artifactUrl doi.

(** A backend with one record of its own. *)
Definition oneRecord : Network :=
  mkNetwork (fun _ => Normal (mkApiResponse [bareItem "10.5555/xyz"]))
    (fun _ => Normal "{}").


(** A link as it is to appear in the markup: [target] is where it
    points, [text] what it shows. *)
Definition doubleQuote : string := String (ascii_of_nat 34) EmptyString.

Definition hyperlink (target text : string) : string :=
  "<a href=" ++ doubleQuote ++ target ++ doubleQuote
    ++ " target=" ++ doubleQuote ++ "_blank" ++ doubleQuote
    ++ ">" ++ text ++ "</a>".

(** A record with three contributors: one with a person and an
    organisation identifier, one without identifiers, one with an
    organisation identifier that is no URL. *)
Definition threeContributors : Attributes :=
  mkAttributes "10.1234/abc" None None None
    (Some
       [Contributor.mk "University" None None None
          (Some
             [NameIdentifier.mk "https://orcid.org/0000-0002-1825-0097" None;
              NameIdentifier.mk "https://ror.org/0123abcd" None])
          None;
        Contributor.mk "Jane Doe" None None None None None;
        Contributor.mk "Institute" None None None
          (Some [NameIdentifier.mk "ror.org/05abc" (Some "ROR")])
          None])
    None.

(** A record with two creators and two related identifiers. *)
Definition twoCreators : Attributes :=
  mkAttributes "10.1234/abc" None
    (Some
       [Creator.mk "Doe, Jane" None None None None;
        Creator.mk "Roe, Richard" None None None None])
    (Some
       [RelatedIdentifier.mk "https://doi.org/10.5/x" None None;
        RelatedIdentifier.mk "10.5/y" None None])
    None None.


(** ** Strings: append, length, prefixes *)

Section Strings.

Lemma append_nil_r (s : string) : s ++ EmptyString = s.
Proof. induction s as [|c s IH]; simpl; [reflexivity | now rewrite IH]. Qed.

Lemma append_assoc (a b c : string) : (a ++ b) ++ c = a ++ (b ++ c).
Proof. induction a as [|x a IH]; simpl; [reflexivity | now rewrite IH]. Qed.

Lemma length_append (a b : string) :
  String.length (a ++ b) = String.length a + String.length b.
Proof. induction a as [|x a IH]; simpl; [reflexivity | now rewrite IH]. Qed.

Lemma chars_append (a b : string) :
  JS.chars (a ++ b) = (JS.chars a ++ JS.chars b)%list.
Proof.
  unfold JS.chars.
  induction a as [|x a IH]; simpl; [reflexivity | now rewrite IH].
Qed.

Lemma chars_length (s : string) : List.length (JS.chars s) = String.length s.
Proof.
  unfold JS.chars.
  induction s as [|x s IH]; simpl; [reflexivity | now rewrite IH].
Qed.

Lemma substring_0_append (a b : string) :
  substring 0 (String.length a) (a ++ b) = a.
Proof.
  induction a as [|x a IH]; simpl.
  - destruct b; reflexivity.
  - now rewrite IH.
Qed.

Lemma dropLast3_append (a b : string) :
  String.length b = 3 -> JS.dropLast3 (a ++ b) = a.
Proof.
  intros Hb. unfold JS.dropLast3.
  rewrite length_append, Hb.
  replace (String.length a + 3 - 3) with (String.length a) by lia.
  apply substring_0_append.
Qed.

Lemma truthy_false (s : string) : JS.truthy s = false <-> s = EmptyString.
Proof. destruct s; simpl; split; congruence. Qed.

Lemma truthy_true (s : string) : JS.truthy s = true <-> s <> EmptyString.
Proof. destruct s; simpl; split; congruence. Qed.

End Strings.

(** ** The highlight engine *)

Section Highlight.

Lemma meta_is_syntax (c : ascii) :
  JS.isSyntaxCharacter c = isMetaCharacter c.
Proof. by_cases_on_ascii c. Qed.

Lemma not_meta_not_delimiter (c : ascii) :
  isMetaCharacter c = false ->
  Ascii.eqb c ")" = false /\ Ascii.eqb c "\" = false.
Proof. by_cases_on_ascii c. Qed.

Lemma meta_class_member (c : ascii) :
  existsb (JS.unitMatches false c)
    ["."; "*"; "+"; "?"; "^"; "$"; "{"; "}"; "("; ")"; "|"; "["; "]"; "\"]%char
  = isMetaCharacter c.
Proof. reflexivity. Qed.

(** Line 125 puts a backslash before each metacharacter and nothing
    else. *)
Lemma escapeQuery_escapes (query : string) :
  escapeQuery query = escapeLiteral query.
Proof.
  unfold escapeQuery, JS.replace.
  induction query as [|c q IH]; [reflexivity|].
  cbn [JS.replaceFrom escapeLiteral].
  unfold JS.matchAt. cbn [JS.pattern metaCharacters JS.ignoreCase].
  rewrite meta_class_member.
  destruct (isMetaCharacter c).
  - cbn. now rewrite IH.
  - now rewrite IH.
Qed.

(** The escaped query parses back to the characters of the query. *)
Lemma parseAtoms_escapeLiteral (query tail : string) :
  JS.parseAtoms (escapeLiteral query ++ String ")" tail)
  = Some (JS.chars query, tail).
Proof.
  induction query as [|c q IH]; [reflexivity|].
  cbn [escapeLiteral].
  destruct (isMetaCharacter c) eqn:Hc.
  - cbn [append JS.parseAtoms].
    replace (Ascii.eqb "\" ")") with false by reflexivity.
    replace (Ascii.eqb "\" "\") with true by reflexivity.
    rewrite meta_is_syntax, Hc, IH. reflexivity.
  - destruct (not_meta_not_delimiter c Hc) as [Hp Hb].
    cbn [append JS.parseAtoms].
    rewrite Hp, Hb, meta_is_syntax, Hc, IH. reflexivity.
Qed.

Lemma newRegExp_escaped (query : string) :
  JS.newRegExp_gi ("(" ++ escapeQuery query ++ ")")
  = Normal (JS.mkRegExp (JS.Capture (JS.chars query)) true).
Proof.
  rewrite escapeQuery_escapes.
  change ("(" ++ escapeLiteral query ++ ")")
    with (String "(" (escapeLiteral query ++ String ")" EmptyString)).
  unfold JS.newRegExp_gi.
  now rewrite parseAtoms_escapeLiteral.
Qed.

Lemma highlightText_replace (text query : string) :
  query <> EmptyString ->
  highlightText text query
  = Normal (JS.replace (literally query) "<mark>$1</mark>" text).
Proof.
  intros Hq. unfold highlightText.
  destruct query as [|c q]; [congruence|].
  cbn [JS.truthy negb].
  rewrite newRegExp_escaped. reflexivity.
Qed.

Lemma highlightText_returns (text query : string) :
  exists out, highlightText text query = Normal out.
Proof.
  destruct query as [|c q].
  - exists text. reflexivity.
  - eexists. apply highlightText_replace. discriminate.
Qed.

Lemma matchAtoms_sound (atoms : list ascii) (s m r : string) :
  JS.matchAtoms true atoms s = Some (m, r) ->
  s = m ++ r /\ map JS.canonicalize (JS.chars m) = map JS.canonicalize atoms.
Proof.
  revert s m r.
  induction atoms as [|a atoms IH]; intros s m r H; cbn in H.
  - inversion H; subst. split; reflexivity.
  - destruct s as [|c s]; [discriminate|].
    destruct (JS.canonicalize a =? JS.canonicalize c)%N eqn:Hac; [|discriminate].
    destruct (JS.matchAtoms true atoms s) as [[m' r']|] eqn:Hm; [|discriminate].
    inversion H; subst.
    destruct (IH _ _ _ Hm) as [-> Hc].
    apply N.eqb_eq in Hac.
    split; [reflexivity|].
    unfold JS.chars in *. cbn. now rewrite Hc, Hac.
Qed.

Lemma matchAtoms_complete (atoms : list ascii) (s m r : string) :
  JS.matchAtoms true atoms s = None ->
  s = m ++ r ->
  map JS.canonicalize (JS.chars m) <> map JS.canonicalize atoms.
Proof.
  revert s m r.
  induction atoms as [|a atoms IH]; intros s m r H Hs Hc; cbn in H.
  - discriminate.
  - destruct m as [|c m]; [discriminate|].
    cbn in Hc. inversion Hc as [[Hhead Htail]].
    subst s. cbn in H.
    rewrite Hhead, N.eqb_refl in H.
    destruct (JS.matchAtoms true atoms (m ++ r)) as [[m' r']|] eqn:Hm;
      [discriminate|].
    exact (IH _ _ _ Hm eq_refl Htail).
Qed.

Lemma replaceFrom_skip (re : JS.RegExp) (template m r : string) :
  JS.replaceFrom re template (String.length m) (m ++ r)
  = JS.replaceFrom re template 0 r.
Proof.
  induction m as [|c m IH]; [reflexivity|].
  cbn. exact IH.
Qed.

Lemma mark_substitution (m : string) (caps : list string) :
  JS.getSubstitution m (m :: caps) "<mark>$1</mark>"
  = "<mark>" ++ m ++ "</mark>".
Proof. reflexivity. Qed.

Lemma replace_Highlighted (query : string) :
  query <> EmptyString ->
  forall n text, String.length text <= n ->
  Highlighted query text (JS.replace (literally query) "<mark>$1</mark>" text).
Proof.
  intros Hq n. induction n as [|n IH]; intros text Hlen.
  - destruct text; [|cbn in Hlen; lia].
    destruct query as [|c q]; [congruence|].
    cbn. constructor.
  - destruct text as [|c text'].
    + destruct query as [|c q]; [congruence|]. cbn. constructor.
    + unfold JS.replace. cbn [JS.replaceFrom].
      unfold JS.matchAt. cbn [JS.pattern literally JS.ignoreCase].
      destruct (JS.matchAtoms true (JS.chars query) (String c text'))
        as [[m r]|] eqn:Hm.
      * destruct (matchAtoms_sound _ _ _ _ Hm) as [Hs Hc].
        destruct m as [|c' m'].
        { destruct query; [congruence | discriminate]. }
        cbn in Hs. inversion Hs as [[Hhead Htail]]. subst c'.
        unfold JS.captures. cbn [JS.pattern literally].
        rewrite mark_substitution. cbn [String.length].
        rewrite replaceFrom_skip, !append_assoc.
        apply (hl_mark query (String c m') r); [exact Hc|].
        apply IH. subst text'. cbn in Hlen. rewrite length_append in Hlen. lia.
      * apply hl_copy.
        { intros m r Hs. exact (matchAtoms_complete _ _ _ _ Hm Hs). }
        apply IH. cbn in Hlen. lia.
Qed.

Lemma sameIgnoringCase_length (m q : string) :
  sameIgnoringCase m q -> String.length m = String.length q.
Proof.
  intros H. apply (f_equal (@List.length N)) in H.
  now rewrite !length_map, !chars_length in H.
Qed.

Lemma append_inj_length (a b x y : string) :
  String.length a = String.length b -> a ++ x = b ++ y -> a = b /\ x = y.
Proof.
  revert b. induction a as [|c a IH]; intros [|d b] Hlen H;
    try discriminate.
  - split; [reflexivity | exact H].
  - cbn in Hlen, H. inversion H as [[Hc Ht]]. subst d.
    destruct (IH b) as [-> ->]; [lia | exact Ht | split; reflexivity].
Qed.

(** For a query that is not empty the marking is unique. *)
Lemma Highlighted_functional (query text out1 out2 : string) :
  query <> EmptyString ->
  Highlighted query text out1 -> Highlighted query text out2 -> out1 = out2.
Proof.
  intros Hq H1. revert out2.
  induction H1 as [|m rest out Hm H1 IH|c rest out Hno H1 IH]; intros out2 H2.
  - remember EmptyString as text eqn:Ht.
    destruct H2 as [|m rest out Hm H2|c rest out Hno H2];
      [reflexivity| |discriminate].
    apply sameIgnoringCase_length in Hm.
    destruct m; [|discriminate]. destruct query; [congruence|discriminate].
  - remember (m ++ rest) as text eqn:Ht.
    destruct H2 as [|m2 rest2 out2 Hm2 H2|c rest2 out2 Hno H2].
    + apply sameIgnoringCase_length in Hm.
      destruct m; [|discriminate]. destruct query; [congruence|discriminate].
    + destruct (append_inj_length m2 m rest2 rest) as [-> ->].
      * apply sameIgnoringCase_length in Hm, Hm2. congruence.
      * exact Ht.
      * now rewrite (IH _ H2).
    + exfalso. exact (Hno _ _ Ht Hm).
  - remember (String c rest) as text eqn:Ht.
    destruct H2 as [|m2 rest2 out2 Hm2 H2|c2 rest2 out2 Hno2 H2].
    + discriminate.
    + exfalso. exact (Hno _ _ eq_refl Hm2).
    + inversion Ht; subst. now rewrite (IH _ H2).
Qed.

End Highlight.

(** ** Blank strings and [trim] *)

Section Blank.

Lemma trimEnd_empty (s : string) :
  JS.trimEnd s = EmptyString <-> forallb JS.isWhiteSpace (JS.chars s) = true.
Proof.
  unfold JS.chars.
  induction s as [|c s IH]; cbn [JS.trimEnd list_ascii_of_string forallb].
  - split; reflexivity.
  - destruct (JS.trimEnd s) as [|d t].
    + destruct IH as [IH _]. rewrite (IH eq_refl), andb_true_r.
      destruct (JS.isWhiteSpace c); split; congruence.
    + split; [discriminate|].
      intros H. apply andb_true_iff in H. destruct H as [_ H].
      apply IH in H. discriminate.
Qed.

Lemma trimStart_white (s : string) :
  forallb JS.isWhiteSpace (JS.chars (JS.trimStart s))
  = forallb JS.isWhiteSpace (JS.chars s).
Proof.
  unfold JS.chars.
  induction s as [|c s IH]; [reflexivity|].
  cbn [JS.trimStart].
  destruct (JS.isWhiteSpace c) eqn:Hc; [|reflexivity].
  cbn [list_ascii_of_string forallb]. now rewrite Hc, IH.
Qed.

(** [s.trim()] is empty exactly when [s] is empty or white space only. *)
Lemma trim_empty_iff_blank (s : string) :
  JS.trim s = EmptyString <-> blank s.
Proof.
  unfold JS.trim, blank.
  rewrite trimEnd_empty, trimStart_white, forallb_forall. reflexivity.
Qed.

Lemma blank_dec (s : string) : {blank s} + {~ blank s}.
Proof.
  destruct (string_dec (JS.trim s) EmptyString) as [H|H].
  - left. now apply trim_empty_iff_blank.
  - right. intros Hb. apply H. now apply trim_empty_iff_blank.
Qed.

Lemma not_blank_not_empty (s : string) : ~ blank s -> s <> EmptyString.
Proof. intros H ->. apply H. intros c []. Qed.

Lemma not_blank_truthy (s : string) : ~ blank s -> JS.truthy s = true.
Proof. intros H. apply truthy_true. now apply not_blank_not_empty. Qed.

End Blank.

(** ** Claims on the highlight engine *)

(** C4.  For every text and every query that is not blank, line 125
    puts a backslash before every regular-expression metacharacter of the
    query and the expression of line 126 is the query taken literally, in
    any letter case; [highlightText] returns the text in which, from left
    to right, every occurrence is wrapped in [<mark>] with the casing it
    has in the text and everything else is copied, and no other output
    fits that description.  In particular "data" marks "Data" in
    "Data Management Plan", and "." marks exactly the two dots of
    "a.b.c". *)
Theorem highlightText_marks_literal_occurrences (text query : string) :
  ~ blank query ->
  escapeQuery query = escapeLiteral query
  /\ JS.newRegExp_gi ("(" ++ escapeQuery query ++ ")") = Normal (literally query)
  /\ (exists out,
         highlightText text query = Normal out
         /\ Highlighted query text out
         /\ forall out', Highlighted query text out' -> out' = out)
  /\ highlightText "Data Management Plan" "data"
     = Normal "<mark>Data</mark> Management Plan"
  /\ highlightText "a.b.c" "." = Normal "a<mark>.</mark>b<mark>.</mark>c".
Proof.
  intros Hq. apply not_blank_not_empty in Hq.
  split; [apply escapeQuery_escapes|].
  split; [apply newRegExp_escaped|].
  split; [|split; reflexivity].
  exists (JS.replace (literally query) "<mark>$1</mark>" text).
  split; [now apply highlightText_replace|].
  assert (H : Highlighted query text
                (JS.replace (literally query) "<mark>$1</mark>" text))
    by now apply (replace_Highlighted query Hq (String.length text)).
  split; [exact H|].
  intros out' H'. exact (Highlighted_functional _ _ _ _ Hq H' H).
Qed.

Lemma highlightText_marks_literal_occurrences_witness :
  exists out,
    highlightText "Plan A+ (a+)" "a+" = Normal out
    /\ Highlighted "a+" "Plan A+ (a+)" out.
Proof.
  destruct (highlightText_marks_literal_occurrences "Plan A+ (a+)" "a+")
    as (_ & _ & (out & Hout & Hmarks & _) & _).
  - intros H. discriminate (H "a"%char (or_introl eq_refl)).
  - exists out. split; assumption.
Defined.

(** C7, as the code has it.  For every text, [highlightText] with the
    empty query (the form holds the empty string for an absent one)
    returns the text unchanged.  A query of white space that is not empty
    is a query like any other: the text comes back with its occurrences
    marked. *)
Theorem highlightText_empty_query_is_identity (text : string) :
  highlightText text EmptyString = Normal text
  /\ forall query,
       query <> EmptyString ->
       exists out,
         highlightText text query = Normal out /\ Highlighted query text out.
Proof.
  split; [reflexivity|].
  intros query Hq.
  exists (JS.replace (literally query) "<mark>$1</mark>" text).
  split; [now apply highlightText_replace|].
  now apply (replace_Highlighted query Hq (String.length text)).
Qed.

Lemma highlightText_empty_query_is_identity_witness :
  highlightText "a b" EmptyString = Normal "a b"
  /\ exists out,
       highlightText "a b" " " = Normal out /\ Highlighted " " "a b" out.
Proof.
  destruct (highlightText_empty_query_is_identity "a b") as [Hempty Hmarks].
  split; [exact Hempty|].
  apply Hmarks. discriminate.
Defined.

(** C7 fails for a query of white space only: the guard of line 123 lets
    every query but the empty one through, and a space is then marked like
    any other text. *)
Lemma highlightText_blank_query_counterexample :
  blank " "
  /\ highlightText "a b" " " = Normal "a<mark> </mark>b"
  /\ highlightText "a b" " " <> Normal "a b".
Proof.
  split; [|split].
  - intros c [<- | []]. reflexivity.
  - reflexivity.
  - discriminate.
Qed.

(** ** Claims on the query compiler *)

Section QueryCompiler.

Lemma queryParts_clauses (c : SearchCriteria) :
  queryParts c = clauses JS.truthy c.
Proof.
  destruct c as [t d cr r o].
  unfold queryParts, clauses, pushIf; cbn.
  destruct t, d, cr, r, o; reflexivity.
Qed.

Lemma queryString_compiled (c : SearchCriteria) (operator : string) :
  queryString c operator = compiled JS.truthy c operator.
Proof.
  unfold queryString, compiled. rewrite queryParts_clauses. reflexivity.
Qed.

Lemma encodeUnit_encoded (c : ascii) :
  forallb isEncoded (JS.chars (JS.encodeUnit c)) = true.
Proof.
  by_cases_on_ascii c.
Qed.

(** [encodeURIComponent] writes unreserved characters and [%] only: no
    space, no quote, no bracket. *)
Lemma encodeURIComponent_encoded (s : string) :
  forallb isEncoded (JS.chars (JS.encodeURIComponent s)) = true.
Proof.
  induction s as [|c s IH]; [reflexivity|].
  cbn [JS.encodeURIComponent].
  rewrite chars_append, forallb_app, encodeUnit_encoded, IH. reflexivity.
Qed.

Lemma queryParts_nil_iff (c : SearchCriteria) :
  queryParts c = [] <-> Forall (fun value => value = EmptyString) (values c).
Proof.
  rewrite queryParts_clauses.
  destruct c as [t d cr r o]. unfold clauses, values; cbn.
  split.
  - intros H.
    destruct t, d, cr, r, o; try discriminate H.
    repeat constructor.
  - intros H.
    inversion_clear H as [|? ? -> H1]. inversion_clear H1 as [|? ? -> H2].
    inversion_clear H2 as [|? ? -> H3]. inversion_clear H3 as [|? ? -> H4].
    inversion_clear H4 as [|? ? -> _]. reflexivity.
Qed.

Lemma existsb_truthy_parts (c : SearchCriteria) :
  existsb JS.truthy (values c) = true -> queryParts c <> [].
Proof.
  intros H Hnil. apply queryParts_nil_iff in Hnil.
  apply existsb_exists in H. destruct H as (v & Hin & Hv).
  rewrite Forall_forall in Hnil. rewrite (Hnil v Hin) in Hv. discriminate.
Qed.

End QueryCompiler.

(** C1, as the code has it.  For every SearchCriteria with at least one
    field that is not empty and every operator, the query string built by
    [searchSingleApi] has exactly one clause for each non-empty field, in
    field order, and none for an empty field: [titles.title:*v*] and
    [descriptions.description:*v*], and the three phrase clauses in double
    quotes, each [v] the percent-encoded value (written with unreserved
    characters and [%] only); the clauses are joined by the operator
    between spaces, conjoined by AND with the namespace filter and wrapped
    in parentheses; and that string is the [query] parameter of the one
    request sent. *)
Theorem searchSingleApi_compiles_non_empty_fields
  (net : Network) (apiUrl : string) (c : SearchCriteria) (operator : string) :
  existsb JS.truthy (values c) = true ->
  queryParts c = clauses JS.truthy c
  /\ queryString c operator = compiled JS.truthy c operator
  /\ (forall value,
        forallb isEncoded (JS.chars (JS.encodeURIComponent value)) = true)
  /\ searchSingleApi net apiUrl c operator
     = (respond net
          (apiUrl ++ "?query=" ++ compiled JS.truthy c operator
             ++ "&page[size]=10000"),
        [Request
           (apiUrl ++ "?query=" ++ compiled JS.truthy c operator
              ++ "&page[size]=10000")]).
Proof.
  intros H.
  split; [apply queryParts_clauses|].
  split; [apply queryString_compiled|].
  split; [apply encodeURIComponent_encoded|].
  unfold searchSingleApi, requestUrl.
  rewrite <- queryString_compiled.
  destruct (queryParts c) eqn:Hparts.
  - exfalso. exact (existsb_truthy_parts c H Hparts).
  - reflexivity.
Qed.

Lemma searchSingleApi_compiles_non_empty_fields_witness :
  queryString blankTitleCriteria "OR"
  = "(identifiers.identifier:*raid.org.au* AND (titles.title:*%20* OR creators.name:"
      ++ JS.dq ++ "x" ++ JS.dq ++ "))".
Proof.
  destruct (searchSingleApi_compiles_non_empty_fields
              (mkNetwork (fun _ => Normal (mkApiResponse []))
                 (fun _ => Normal EmptyString))
              "https://api.datacite.org/dois" blankTitleCriteria "OR")
    as (_ & H & _).
  - reflexivity.
  - rewrite H. reflexivity.
Defined.

(** C1 fails for a field of white space only: with a title of one space
    and the creator "x" the title is blank, yet the query has a title
    clause, where the claim has the creator clause alone. *)
Lemma queryString_blank_field_counterexample :
  blank (title blankTitleCriteria)
  /\ existsb notBlank (values blankTitleCriteria) = true
  /\ queryString blankTitleCriteria "AND"
     = "(identifiers.identifier:*raid.org.au* AND (titles.title:*%20* AND creators.name:"
         ++ JS.dq ++ "x" ++ JS.dq ++ "))"
  /\ compiled notBlank blankTitleCriteria "AND"
     = "(identifiers.identifier:*raid.org.au* AND (creators.name:"
         ++ JS.dq ++ "x" ++ JS.dq ++ "))"
  /\ queryString blankTitleCriteria "AND"
     <> compiled notBlank blankTitleCriteria "AND".
Proof.
  split; [intros ch [<- | []]; reflexivity|].
  repeat split; try reflexivity.
  vm_compute. discriminate.
Qed.

(** C6.  For every SearchCriteria that produces no clause, which is the
    case exactly when all five fields are empty, [searchSingleApi] answers
    with the empty result [{ data: [] }] and sends no request. *)
Theorem searchSingleApi_empty_query
  (net : Network) (apiUrl : string) (c : SearchCriteria) (operator : string) :
  queryParts c = [] ->
  Forall (fun value => value = EmptyString) (values c)
  /\ searchSingleApi net apiUrl c operator = (Normal (mkApiResponse []), []).
Proof.
  intros H. split; [now apply queryParts_nil_iff|].
  unfold searchSingleApi. now rewrite H.
Qed.

Lemma searchSingleApi_empty_query_witness :
  searchSingleApi
    (mkNetwork (fun _ => Throw (Error "unreachable"))
       (fun _ => Throw (Error "unreachable")))
    "https://api.datacite.org/dois" noCriteria "AND"
  = (Normal (mkApiResponse []), []).
Proof.
  apply (searchSingleApi_empty_query _ _ noCriteria "AND" eq_refl).
Defined.

(** ** Claims on the fan-out *)

Section FanOut.

Lemma hasAtLeastOneQuery_iff (c : SearchCriteria) :
  hasAtLeastOneQuery c = true <-> Exists (fun value => ~ blank value) (values c).
Proof.
  unfold hasAtLeastOneQuery.
  rewrite existsb_exists, Exists_exists.
  split; intros (v & Hin & Hv); exists v; (split; [exact Hin|]).
  - apply negb_true_iff, String.eqb_neq in Hv.
    intros Hb. apply Hv. now apply trim_empty_iff_blank.
  - apply negb_true_iff, String.eqb_neq.
    intros Ht. apply Hv. now apply trim_empty_iff_blank.
Qed.

Lemma hasAtLeastOneQuery_parts (c : SearchCriteria) :
  hasAtLeastOneQuery c = true -> queryParts c <> [].
Proof.
  intros H. apply existsb_truthy_parts.
  apply hasAtLeastOneQuery_iff, Exists_exists in H.
  destruct H as (v & Hin & Hv).
  apply existsb_exists. exists v. split; [exact Hin|].
  now apply not_blank_truthy.
Qed.

Lemma all_blank_no_query (c : SearchCriteria) :
  Forall blank (values c) -> hasAtLeastOneQuery c = false.
Proof.
  intros Hall. destruct (hasAtLeastOneQuery c) eqn:H; [|reflexivity].
  apply hasAtLeastOneQuery_iff, Exists_exists in H.
  destruct H as (v & Hin & Hv).
  rewrite Forall_forall in Hall. elim Hv. now apply Hall.
Qed.

(** With a clause to send, [searchSingleApi] sends one request and
    settles as the endpoint does. *)
Lemma searchSingleApi_request (net : Network) (api : string)
  (c : SearchCriteria) (operator : string) :
  queryParts c <> [] ->
  searchSingleApi net api c operator
  = (respond net (requestUrl api c operator),
     [Request (requestUrl api c operator)]).
Proof.
  intros H. unfold searchSingleApi.
  destruct (queryParts c); [congruence | reflexivity].
Qed.

End FanOut.

Section UntypedFanOut.

(** The reducer of lines 217-222 over outcomes the code is written for:
    the data of the fulfilled ones, in the order of the outcomes. *)
Lemma reduce_asDeclared (outcomes : list (completion Untyped.Body)) :
  forall acc,
    Forall asDeclared outcomes ->
    forOf Untyped.combine outcomes acc = Normal (acc ++ successes outcomes)%list.
Proof.
  induction outcomes as [|outcome outcomes IH]; intros acc Hall.
  - cbn. now rewrite app_nil_r.
  - inversion_clear Hall as [|? ? Hfirst Hrest].
    cbn [forOf successes flat_map].
    destruct outcome as [[[items|]]|e]; cbn in Hfirst |- *.
    + rewrite (IH _ Hrest). unfold successes. now rewrite app_assoc.
    + now elim Hfirst.
    + apply (IH _ Hrest).
Qed.

Lemma untyped_searchSingleApi_request (net : Untyped.Network) (api : string)
  (c : SearchCriteria) (operator : string) :
  queryParts c <> [] ->
  Untyped.searchSingleApi net api c operator
  = (Untyped.respond net (requestUrl api c operator),
     [Request (requestUrl api c operator)]).
Proof.
  intros H. unfold Untyped.searchSingleApi.
  destruct (queryParts c); [congruence | reflexivity].
Qed.

(** After validation [searchDois] sends its one request and reduces the
    one outcome. *)
Lemma untyped_searchDois_single (net : Untyped.Network) (c : SearchCriteria)
  (operator : string) :
  hasAtLeastOneQuery c = true ->
  Untyped.searchDois net c operator
  = (combinedData <-
       Untyped.combine []
         (Untyped.respond net
            (requestUrl "https://api.datacite.org/dois" c operator)) ;;
     Normal (mkApiResponse combinedData),
     [Request (requestUrl "https://api.datacite.org/dois" c operator)]).
Proof.
  intros H. unfold Untyped.searchDois, apis.
  rewrite H. cbn [negb map concat fst snd app forOf].
  rewrite (untyped_searchSingleApi_request _ _ _ _ (hasAtLeastOneQuery_parts c H)).
  cbn [fst snd].
  destruct (Untyped.combine _ _); reflexivity.
Qed.

(** On a network that answers at the declared type the function for any
    body is the function for typed bodies. *)
Lemma searchDois_at_declared_type (net : Network) (c : SearchCriteria)
  (operator : string) :
  Untyped.searchDois (declaredShape net) c operator = searchDois net c operator.
Proof.
  unfold Untyped.searchDois, searchDois.
  destruct (hasAtLeastOneQuery c); cbn [negb]; [|reflexivity].
  unfold apis. cbn [map concat forOf fold_left].
  unfold Untyped.searchSingleApi, searchSingleApi.
  destruct (Nat.eqb (List.length (queryParts c)) 0); [reflexivity|].
  cbn [fst snd declaredShape Untyped.respond].
  destruct (respond net _); reflexivity.
Qed.

End UntypedFanOut.

(** C2, as the code has it.  The reducer of [searchDois] takes the outcomes
    of N endpoints, each a rejected request (a failure) or a body with a
    [data] array (a success), to the concatenation of the successful
    responses' data in the order of the outcomes, the failures left out.
    For every search that passes validation [searchDois] sends one request
    to its one endpoint and, when that outcome is a rejection or a body
    with a [data] array, returns without raising the concatenation of the
    successful data in completion order; when every request is rejected
    the result is [{ data: [] }].  A body without a [data] array is outside
    this guarantee. *)
Theorem searchDois_discards_rejected_requests
  (net : Untyped.Network) (c : SearchCriteria) (operator : string) :
  Exists (fun value => ~ blank value) (values c) ->
  (forall outcomes acc,
     Forall asDeclared outcomes ->
     forOf Untyped.combine outcomes acc
     = Normal (acc ++ successes outcomes)%list)
  /\ (asDeclared
        (Untyped.respond net
           (requestUrl "https://api.datacite.org/dois" c operator)) ->
      forall settledAt,
        Untyped.searchDois net c operator
        = (Normal
             (mkApiResponse
                (successes
                   (outcomesIn net c operator (completionOrder settledAt apis)))),
           [Request (requestUrl "https://api.datacite.org/dois" c operator)]))
  /\ ((forall api, In api apis ->
         exists e, Untyped.respond net (requestUrl api c operator) = Throw e) ->
      Untyped.searchDois net c operator
      = (Normal (mkApiResponse []),
         [Request (requestUrl "https://api.datacite.org/dois" c operator)])).
Proof.
  intros Hvalid. apply hasAtLeastOneQuery_iff in Hvalid.
  split; [intros outcomes acc; apply reduce_asDeclared|].
  split.
  - intros Hshape settledAt.
    rewrite (untyped_searchDois_single net c operator Hvalid).
    unfold completionOrder, apis, outcomesIn, successes, succeeded.
    cbn [fold_left insertBy map flat_map].
    destruct (Untyped.respond net _) as [[[items|]]|e]; cbn in Hshape |- *.
    + now rewrite app_nil_r.
    + now elim Hshape.
    + reflexivity.
  - intros Hfail.
    rewrite (untyped_searchDois_single net c operator Hvalid).
    destruct (Hfail "https://api.datacite.org/dois" (or_introl eq_refl))
      as [e ->].
    reflexivity.
Qed.

Lemma searchDois_discards_rejected_requests_witness :
  forOf Untyped.combine
    [Normal (Untyped.mkBody (Some [bareItem "10.1/a"]));
     Throw (TypeError "Failed to fetch");
     Normal (Untyped.mkBody (Some [bareItem "10.2/b"; bareItem "10.3/c"]))]
    []
  = Normal [bareItem "10.1/a"; bareItem "10.2/b"; bareItem "10.3/c"]
  /\ fst (Untyped.searchDois (declaredShape twoBackends) blankTitleCriteria "AND")
     = Normal (mkApiResponse [bareItem "10.2/b"])
  /\ fst (Untyped.searchDois unreachable blankTitleCriteria "AND")
     = Normal (mkApiResponse []).
Proof.
  assert (Hvalid : Exists (fun value => ~ blank value) (values blankTitleCriteria)).
  { apply Exists_cons_tl, Exists_cons_tl, Exists_cons_hd.
    intros H. discriminate (H "x"%char (or_introl eq_refl)). }
  destruct (searchDois_discards_rejected_requests
              (declaredShape twoBackends) blankTitleCriteria "AND" Hvalid)
    as (Hreduce & Hone & _).
  destruct (searchDois_discards_rejected_requests
              unreachable blankTitleCriteria "AND" Hvalid)
    as (_ & _ & Hnone).
  split; [|split].
  - rewrite Hreduce; [reflexivity|].
    repeat constructor; discriminate.
  - rewrite (Hone ltac:(discriminate) (fun _ => 0)). reflexivity.
  - rewrite Hnone; [reflexivity|].
    intros api _. eexists. reflexivity.
Defined.

(** C2 fails for an endpoint that fails by answering a malformed body: an
    error document, a JSON body without [data].  Nothing of it is to be
    merged, so the claim has the empty result; the spread of line 219
    throws, and [searchDois] rejects with the [TypeError]. *)
Lemma searchDois_error_document_counterexample :
  hasAtLeastOneQuery (describedBy "soil") = true
  /\ succeeded
       (Untyped.respond errorDocument
          (requestUrl "https://api.datacite.org/dois" (describedBy "soil") "AND"))
     = None
  /\ successes (outcomesIn errorDocument (describedBy "soil") "AND" apis) = []
  /\ Untyped.searchDois errorDocument (describedBy "soil") "AND"
     = (Throw (TypeError "result.value.data is not iterable"),
        [Request
           (requestUrl "https://api.datacite.org/dois" (describedBy "soil") "AND")])
  /\ fst (Untyped.searchDois errorDocument (describedBy "soil") "AND")
     <> Normal
          (mkApiResponse
             (successes (outcomesIn errorDocument (describedBy "soil") "AND" apis))).
Proof.
  repeat split; try reflexivity.
  vm_compute. discriminate.
Qed.

(** C3.  For every SearchCriteria whose five fields are all blank,
    [searchDois] throws the validation error and sends no request; for
    every SearchCriteria with a field that is not blank it returns a result
    and no error, whatever the endpoints answer. *)
Theorem searchDois_validation
  (net : Network) (c : SearchCriteria) (operator : string) :
  (Forall blank (values c) ->
   searchDois net c operator
   = (Throw (Error "At least one search criterion is required"), []))
  /\ (Exists (fun value => ~ blank value) (values c) ->
      exists response, fst (searchDois net c operator) = Normal response).
Proof.
  split.
  - intros H. unfold searchDois.
    now rewrite (all_blank_no_query c H).
  - intros H. apply hasAtLeastOneQuery_iff in H.
    unfold searchDois. rewrite H. cbn [negb fst].
    eexists. reflexivity.
Qed.

Lemma searchDois_validation_witness :
  searchDois twoBackends
    (mkSearchCriteria " " EmptyString "  " EmptyString EmptyString) "AND"
  = (Throw (Error "At least one search criterion is required"), [])
  /\ exists response,
       fst (searchDois deadNetwork blankTitleCriteria "AND") = Normal response.
Proof.
  split.
  - apply (proj1 (searchDois_validation twoBackends _ "AND")).
    repeat constructor; intros ch Hin; cbn in Hin;
      repeat (destruct Hin as [<- | Hin]; [reflexivity|]); destruct Hin.
  - apply (proj2 (searchDois_validation deadNetwork blankTitleCriteria "AND")).
    apply Exists_cons_tl, Exists_cons_tl, Exists_cons_hd.
    intros H. discriminate (H "x"%char (or_introl eq_refl)).
Defined.

(** ** Path segments *)

Section Segments.

Lemma includes_char_cons (sep c : ascii) (s : string) :
  JS.includes (String sep EmptyString) (String c s)
  = Ascii.eqb c sep || JS.includes (String sep EmptyString) s.
Proof.
  cbn [JS.includes prefix].
  destruct (ascii_dec sep c) as [->|Hne].
  - rewrite Ascii.eqb_refl. destruct s; reflexivity.
  - apply not_eq_sym, Ascii.eqb_neq in Hne. now rewrite Hne.
Qed.

Lemma includes_char_nil (sep : ascii) :
  JS.includes (String sep EmptyString) EmptyString = false.
Proof. reflexivity. Qed.

Lemma split_without (sep : ascii) (s : string) :
  JS.includes (String sep EmptyString) s = false -> JS.split sep s = [s].
Proof.
  induction s as [|c s IH]; intros H; [reflexivity|].
  rewrite includes_char_cons in H. apply orb_false_iff in H.
  destruct H as [Hc Hs].
  cbn [JS.split]. now rewrite Hc, (IH Hs).
Qed.

Lemma split_with (sep : ascii) (s : string) :
  JS.includes (String sep EmptyString) s = true ->
  exists p q rest, JS.split sep s = p :: q :: rest.
Proof.
  induction s as [|c s IH]; intros H; [discriminate|].
  rewrite includes_char_cons in H. cbn [JS.split].
  destruct (Ascii.eqb c sep) eqn:Hc.
  - destruct s as [|d s].
    + exists EmptyString, EmptyString, []. reflexivity.
    + cbn [JS.split].
      destruct (Ascii.eqb d sep); [eauto|].
      destruct (JS.split sep s); eauto.
  - destruct (IH H) as (p & q & rest & ->). eauto.
Qed.

Lemma split_not_nil (sep : ascii) (s : string) : JS.split sep s <> [].
Proof.
  destruct s as [|c s]; cbn [JS.split]; [discriminate|].
  destruct (Ascii.eqb c sep); [discriminate|].
  destruct (JS.split sep s); discriminate.
Qed.

(** [s.split("/").pop()] is the text behind the last slash. *)
Lemma pop_split_finalSegment (s : string) :
  JS.pop (JS.split "/" s) = Some (finalSegment s).
Proof.
  induction s as [|c s IH]; [reflexivity|].
  cbn [finalSegment].
  destruct (JS.includes "/" s) eqn:Hs.
  - destruct (split_with "/" s Hs) as (p & q & rest & Hsplit).
    cbn [JS.split]. rewrite Hsplit in *.
    destruct (Ascii.eqb c "/"); exact IH.
  - cbn [JS.split]. rewrite (split_without "/" s Hs).
    destruct (Ascii.eqb c "/"); reflexivity.
Qed.

(** [s.split(".")[0]] is the text before the first dot. *)
Lemma first_split_upToFirstDot (s : string) :
  nth_error (JS.split "." s) 0 = Some (upToFirstDot s).
Proof.
  induction s as [|c s IH]; [reflexivity|].
  cbn [JS.split upToFirstDot].
  destruct (Ascii.eqb c "."); [reflexivity|].
  destruct (JS.split "." s) as [|p ps]; [discriminate IH|].
  cbn in IH |- *. now inversion IH.
Qed.

End Segments.

(** ** Claims on the result projection *)

Section Projection.

Variable searchCriteria : SearchCriteria.

Lemma highlightIf_highlighted (criterion text : string) :
  highlightIf criterion text = Normal (highlighted criterion text).
Proof.
  unfold highlightIf, highlighted.
  destruct criterion as [|c q]; [reflexivity|].
  cbn [JS.truthy]. apply highlightText_replace. discriminate.
Qed.

Lemma includes_truthy (needle value : string) :
  needle <> EmptyString ->
  JS.includes needle value = true -> JS.truthy value = true.
Proof.
  intros Hn. destruct value; [|reflexivity].
  destruct needle; [congruence | discriminate].
Qed.

Lemma organisationStep_link (links : string) (nameId : NameIdentifier.t) :
  organisationStep searchCriteria links nameId
  = Normal
      (links ++
       trail (organisationLink searchCriteria)
         (filter (JS.includes "ror.org") [NameIdentifier.nameIdentifier nameId])).
Proof.
  unfold organisationStep. cbn [filter].
  destruct (JS.includes "ror.org" (NameIdentifier.nameIdentifier nameId)) eqn:Hror.
  - rewrite (includes_truthy "ror.org" _ ltac:(discriminate) Hror).
    cbn [andb]. rewrite pop_split_finalSegment, highlightIf_highlighted.
    cbn [bind trail]. unfold organisationLink, JS.orElse.
    destruct (finalSegment (NameIdentifier.nameIdentifier nameId));
      cbn [JS.truthy]; now rewrite append_nil_r.
  - rewrite andb_false_r. cbn [trail]. now rewrite append_nil_r.
Qed.

Lemma trail_app (f : string -> string) (a b : list string) :
  trail f (a ++ b) = trail f a ++ trail f b.
Proof.
  induction a as [|v a IH]; [reflexivity|].
  cbn [trail app]. now rewrite IH, !append_assoc.
Qed.

Lemma forOf_organisationStep (ns : list NameIdentifier.t) (links : string) :
  forOf (organisationStep searchCriteria) ns links
  = Normal
      (links ++
       trail (organisationLink searchCriteria)
         (filter (JS.includes "ror.org") (map NameIdentifier.nameIdentifier ns))).
Proof.
  revert links. induction ns as [|n ns IH]; intros links.
  - cbn. now rewrite append_nil_r.
  - cbn [forOf]. rewrite organisationStep_link. cbn [bind].
    rewrite IH, append_assoc, <- trail_app, <- filter_app.
    reflexivity.
Qed.

Lemma contributorStep_link (links : string) (contributor : Contributor.t) :
  contributorStep searchCriteria links contributor
  = Normal
      (links ++
       trail (organisationLink searchCriteria)
         (filter (JS.includes "ror.org")
            match Contributor.nameIdentifiers contributor with
            | None => []
            | Some ns => map NameIdentifier.nameIdentifier ns
            end)).
Proof.
  unfold contributorStep.
  destruct (Contributor.nameIdentifiers contributor) as [[|n ns]|].
  - cbn. now rewrite append_nil_r.
  - apply forOf_organisationStep.
  - cbn. now rewrite append_nil_r.
Qed.

Lemma forOf_contributorStep (cs : list Contributor.t) (links : string) :
  forOf (contributorStep searchCriteria) cs links
  = Normal
      (links ++
       trail (organisationLink searchCriteria)
         (filter (JS.includes "ror.org")
            (flat_map
               (fun contributor =>
                  match Contributor.nameIdentifiers contributor with
                  | None => []
                  | Some ns => map NameIdentifier.nameIdentifier ns
                  end)
               cs))).
Proof.
  revert links. induction cs as [|c cs IH]; intros links.
  - cbn. now rewrite append_nil_r.
  - cbn [forOf flat_map]. rewrite contributorStep_link. cbn [bind].
    rewrite IH, append_assoc, filter_app, trail_app. reflexivity.
Qed.

Lemma trail_join (f : string -> string) (ids : list string) :
  ids <> [] -> trail f ids = JS.join " & " (map f ids) ++ " & ".
Proof.
  unfold JS.join.
  induction ids as [|v ids IH]; intros Hne; [congruence|].
  destruct ids as [|w ids].
  - cbn. reflexivity.
  - cbn [trail map String.concat] in *.
    rewrite IH by discriminate. now rewrite !append_assoc.
Qed.

Lemma join_links_truthy (ids : list string) :
  ids <> [] -> JS.truthy (JS.join " & " (map (organisationLink searchCriteria) ids)) = true.
Proof.
  destruct ids as [|v [|w ids]]; intros H; [congruence| |]; reflexivity.
Qed.

Lemma organisationsLinks_trail (attrs : Attributes) :
  organisationsLinks attrs searchCriteria
  = Normal
      (match organisationIdentifiers attrs with
       | [] => EmptyString
       | ids => JS.join " & " (map (organisationLink searchCriteria) ids)
       end).
Proof.
  unfold organisationsLinks, organisationIdentifiers, nameIdentifierValues.
  destruct (contributors attrs) as [[|c cs]|]; try reflexivity.
  rewrite forOf_contributorStep. cbn [bind append].
  match goal with |- context [filter ?f ?l] => destruct (filter f l) as [|v ids] eqn:Hids end.
  - reflexivity.
  - rewrite trail_join by discriminate.
    rewrite dropLast3_append by reflexivity.
    destruct (JS.join " & " (map (organisationLink searchCriteria) (v :: ids)) ++ " & ") eqn:Hj; [|reflexivity].
    apply (f_equal String.length) in Hj. rewrite length_append in Hj.
    cbn in Hj. lia.
Qed.

End Projection.

(** C5.  For every record, the organisation links are built from exactly
    those name identifiers of its contributors whose value contains
    "ror.org", in order.  Each link points to [https://ror.org/] followed
    by the text behind the last slash of the identifier and shows the full
    identifier value, highlighted with the organisation criterion (as it
    stands when there is no criterion); the links are joined by " & ", and
    "No organisations" is shown when no identifier qualifies.  For the
    contributor identifiers [https://orcid.org/0000-0002-1825-0097] and
    [https://ror.org/0123abcd] only the second is rendered, showing the
    full URL. *)
Theorem organisations_projection
  (attrs : Attributes) (searchCriteria : SearchCriteria) :
  exists shown : string -> string,
    (forall value,
       highlightIf (organisation searchCriteria) value = Normal (shown value))
    /\ (organisation searchCriteria = EmptyString -> forall value, shown value = value)
    /\ organisationsShown attrs searchCriteria
       = Normal
           (match organisationIdentifiers attrs with
            | [] => "No organisations"
            | ids =>
                JS.join " & "
                  (map
                     (fun value =>
                        hyperlink ("https://ror.org/" ++ finalSegment value)
                          (shown value))
                     ids)
            end)
    /\ organisationsShown twoIdentifiers noCriteria
       = Normal
           ("<a href=" ++ doubleQuote ++ "https://ror.org/0123abcd" ++ doubleQuote
              ++ " target=" ++ doubleQuote ++ "_blank" ++ doubleQuote
              ++ ">https://ror.org/0123abcd</a>").
Proof.
  exists (highlighted (organisation searchCriteria)).
  split; [intros value; apply highlightIf_highlighted|].
  split; [intros H value; unfold highlighted; now rewrite H|].
  split; [|reflexivity].
  unfold organisationsShown. rewrite organisationsLinks_trail. cbn [bind].
  destruct (organisationIdentifiers attrs) as [|v ids]; [reflexivity|].
  unfold JS.orElse. now rewrite join_links_truthy.
Qed.

Lemma organisations_projection_witness :
  organisationsShown threeContributors
    (mkSearchCriteria EmptyString EmptyString EmptyString EmptyString "ABC")
  = Normal
      ("<a href=" ++ doubleQuote ++ "https://ror.org/0123abcd" ++ doubleQuote
         ++ " target=" ++ doubleQuote ++ "_blank" ++ doubleQuote
         ++ ">https://ror.org/0123<mark>abc</mark>d</a>"
         ++ " & "
         ++ "<a href=" ++ doubleQuote ++ "https://ror.org/05abc" ++ doubleQuote
         ++ " target=" ++ doubleQuote ++ "_blank" ++ doubleQuote
         ++ ">ror.org/05<mark>abc</mark></a>").
Proof.
  destruct (organisations_projection threeContributors
              (mkSearchCriteria EmptyString EmptyString EmptyString EmptyString "ABC"))
    as (shown & Hshown & _ & H & _).
  rewrite H. cbn [organisationIdentifiers nameIdentifierValues].
  assert (H1 := Hshown "https://ror.org/0123abcd").
  assert (H2 := Hshown "ror.org/05abc").
  cbn in H1, H2. injection H1 as H1. injection H2 as H2.
  cbn. rewrite <- H1, <- H2. reflexivity.
Defined.

(** C10.  For every record without descriptions and every description
    criterion that is not blank, the description line is
    [highlightText("No Description", criterion)]: the placeholder is itself
    highlighted, so that the criterion "no" marks the "No" of the
    placeholder. *)
Theorem description_placeholder_is_highlighted
  (attrs : Attributes) (searchCriteria : SearchCriteria) :
  descriptions attrs = None \/ descriptions attrs = Some [] ->
  ~ blank (description searchCriteria) ->
  descriptionLine attrs searchCriteria
  = highlightText "No Description" (description searchCriteria)
  /\ descriptionLine (attributes (bareItem "10.1234/abc")) (describedBy "no")
     = Normal "<mark>No</mark> Description".
Proof.
  intros Hnone Hq. split; [|reflexivity].
  unfold descriptionLine, firstDescription.
  rewrite (not_blank_truthy _ Hq).
  destruct Hnone as [-> | ->]; reflexivity.
Qed.

Lemma description_placeholder_is_highlighted_witness :
  descriptionLine (mkAttributes "10.1234/abc" None None None None (Some []))
    (describedBy "script")
  = Normal "No De<mark>script</mark>ion".
Proof.
  destruct (description_placeholder_is_highlighted
              (mkAttributes "10.1234/abc" None None None None (Some []))
              (describedBy "script")) as [H _].
  - right. reflexivity.
  - intros H. discriminate (H "s"%char (or_introl eq_refl)).
  - rewrite H. reflexivity.
Defined.

(** ** Rendering never throws *)

Section Rendering.

Lemma mapM_normal {A B : Type} (f : A -> completion B) (g : A -> B)
  (l : list A) :
  (forall x, f x = Normal (g x)) -> mapM f l = Normal (map g l).
Proof.
  intros H. induction l as [|x l IH]; [reflexivity|].
  cbn [mapM map]. now rewrite H, IH.
Qed.

Lemma forOf_normal {A S : Type} (body : S -> A -> completion S)
  (g : S -> A -> S) (l : list A) (s : S) :
  (forall s x, body s x = Normal (g s x)) ->
  forOf body l s = Normal (fold_left g l s).
Proof.
  intros H. revert s. induction l as [|x l IH]; intros s; [reflexivity|].
  cbn [forOf fold_left]. rewrite H. cbn [bind]. apply IH.
Qed.

Lemma titlesLine_returns (attrs : Attributes) (c : SearchCriteria) :
  exists line, titlesLine attrs c = Normal line.
Proof.
  unfold titlesLine. destruct (titles attrs) as [ts|]; [|eauto].
  rewrite (mapM_normal _ (fun t => highlighted (title c) (Title.title t)))
    by (intros t; apply highlightIf_highlighted).
  cbn [bind]. eauto.
Qed.

Lemma doiLink_returns (attrs : Attributes) (c : SearchCriteria) :
  exists line, doiLink attrs c = Normal line.
Proof.
  unfold doiLink. destruct (JS.truthy (doi attrs)); [|eauto].
  rewrite highlightIf_highlighted. cbn [bind]. eauto.
Qed.

Lemma creatorsLinks_returns (attrs : Attributes) (c : SearchCriteria) :
  exists line, creatorsLinks attrs c = Normal line.
Proof.
  unfold creatorsLinks. destruct (creators attrs) as [[|x xs]|]; eauto.
  erewrite forOf_normal.
  - cbn [bind]. eauto.
  - intros links aCreator. rewrite highlightIf_highlighted. cbn [bind].
    instantiate
      (1 := fun links aCreator =>
              links ++ anchor (Creator.name aCreator)
                         (highlighted (creator c) (Creator.name aCreator))
                ++ " & ").
    reflexivity.
Qed.

Lemma relatedIdentifiersLinks_returns (attrs : Attributes) (c : SearchCriteria) :
  exists line, relatedIdentifiersLinks attrs c = Normal line.
Proof.
  unfold relatedIdentifiersLinks.
  destruct (relatedIdentifiers attrs) as [[|x xs]|]; eauto.
  erewrite forOf_normal.
  - cbn [bind]. eauto.
  - intros links relatedId. rewrite highlightIf_highlighted. cbn [bind].
    instantiate
      (1 := fun links relatedId =>
              links ++ anchor (RelatedIdentifier.relatedIdentifier relatedId)
                         (highlighted (related c)
                            (RelatedIdentifier.relatedIdentifier relatedId))
                ++ " & ").
    reflexivity.
Qed.

Lemma descriptionLine_returns (attrs : Attributes) (c : SearchCriteria) :
  exists line, descriptionLine attrs c = Normal line.
Proof.
  unfold descriptionLine.
  destruct (JS.truthy (description c)); [apply highlightText_returns | eauto].
Qed.

(** No record and no search makes [createResultElement] throw. *)
Lemma createResultElement_returns (item : Item) (c : SearchCriteria) :
  exists element, createResultElement item c = Normal element.
Proof.
  unfold createResultElement.
  destruct (titlesLine_returns (attributes item) c) as [l1 ->].
  destruct (doiLink_returns (attributes item) c) as [l2 ->].
  destruct (creatorsLinks_returns (attributes item) c) as [l3 ->].
  destruct (relatedIdentifiersLinks_returns (attributes item) c) as [l4 ->].
  rewrite organisationsLinks_trail.
  destruct (descriptionLine_returns (attributes item) c) as [l6 ->].
  cbn [bind]. eauto.
Qed.

End Rendering.

(** ** The set of files to download *)

Section FilesToDownload.

Lemma setHas_In (x : string) (set : list string) :
  setHas x set = true <-> In x set.
Proof.
  unfold setHas. rewrite existsb_exists. split.
  - intros (y & Hin & Heq). apply String.eqb_eq in Heq. now subst.
  - intros Hin. exists x. split; [exact Hin | apply String.eqb_refl].
Qed.

Lemma setAdd_extends (x : string) (set : list string) :
  exists added,
    setAdd x set = (set ++ added)%list
    /\ forall u, In u added -> u = x /\ ~ In u set.
Proof.
  unfold setAdd. destruct (setHas x set) eqn:Hhas.
  - exists []. split; [now rewrite app_nil_r | intros u []].
  - exists [x]. split; [reflexivity|].
    intros u [<- | []]. split; [reflexivity|].
    intros Hin. apply setHas_In in Hin. congruence.
Qed.

Lemma setAdd_In (x : string) (set : list string) : In x (setAdd x set).
Proof.
  unfold setAdd. destruct (setHas x set) eqn:Hhas.
  - now apply setHas_In.
  - apply in_or_app. right. now left.
Qed.

Lemma setAdd_NoDup (x : string) (set : list string) :
  NoDup set -> NoDup (setAdd x set).
Proof.
  intros Hset. unfold setAdd. destruct (setHas x set) eqn:Hhas; [exact Hset|].
  apply NoDup_app; [exact Hset | repeat constructor; intros [] |].
  intros a Ha [<- | []]. apply setHas_In in Ha. congruence.
Qed.

Lemma addAll_extends (urls set : list string) :
  exists added,
    addAll urls set = (set ++ added)%list
    /\ forall u, In u added -> In u urls /\ ~ In u set.
Proof.
  unfold addAll. revert set.
  induction urls as [|x urls IH]; intros set; cbn [fold_left].
  - exists []. split; [now rewrite app_nil_r | intros u []].
  - destruct (setAdd_extends x set) as (a1 & H1 & Ha1).
    destruct (IH (setAdd x set)) as (a2 & H2 & Ha2).
    exists (a1 ++ a2)%list. split.
    + now rewrite H2, H1, app_assoc.
    + intros u Hu. apply in_app_or in Hu. destruct Hu as [Hu|Hu].
      * destruct (Ha1 u Hu) as [-> Hnot]. split; [now left | exact Hnot].
      * destruct (Ha2 u Hu) as [Hin Hnot]. split; [now right|].
        intros Hset. apply Hnot. rewrite H1. apply in_or_app. now left.
Qed.

Lemma addAll_NoDup (urls set : list string) :
  NoDup set -> NoDup (addAll urls set).
Proof.
  unfold addAll. revert set.
  induction urls as [|x urls IH]; intros set Hset; [exact Hset|].
  cbn [fold_left]. apply IH. now apply setAdd_NoDup.
Qed.

Lemma addAll_keeps (urls set : list string) (u : string) :
  In u set -> In u (addAll urls set).
Proof.
  intros Hin. destruct (addAll_extends urls set) as (added & -> & _).
  apply in_or_app. now left.
Qed.

Lemma addAll_has (urls set : list string) (u : string) :
  In u urls -> In u (addAll urls set).
Proof.
  unfold addAll. revert set.
  induction urls as [|x urls IH]; intros set Hin; [destruct Hin|].
  cbn [fold_left]. destruct Hin as [<- | Hin].
  - apply (addAll_keeps urls). apply setAdd_In.
  - now apply IH.
Qed.

Lemma renderItems_files (c : SearchCriteria) (items : list Item)
  (nodes : list Node) (files : list string) :
  exists nodes',
    renderItems c items nodes files
    = (Normal tt, nodes',
       addAll (map (fun item => artifactUrl (doi (attributes item))) items) files).
Proof.
  revert nodes files.
  induction items as [|item items IH]; intros nodes files.
  - exists nodes. reflexivity.
  - cbn [renderItems].
    destruct (createResultElement_returns item c) as [element ->].
    destruct (IH (nodes ++ [Result element])%list
                (setAdd (artifactUrl (doi (attributes item))) files))
      as [nodes' ->].
    exists nodes'. reflexivity.
Qed.

Lemma renderResults_files (files : list string) (response : ApiResponse)
  (c : SearchCriteria) :
  exists nodes,
    renderResults files response c
    = (Normal tt, nodes, addAll (artifactUrls response) files).
Proof.
  unfold renderResults, artifactUrls.
  destruct (data response) as [|item items] eqn:Hdata.
  - eexists. reflexivity.
  - destruct (renderItems_files c (item :: items)
                [Button "download-results" "Download Results" false] files)
      as [nodes ->].
    eexists. reflexivity.
Qed.

Lemma Grows_refl (set : list string) : Grows set set.
Proof. exists []. split; [now rewrite app_nil_r | intros u []]. Qed.

Lemma Grows_trans (a b c : list string) : Grows a b -> Grows b c -> Grows a c.
Proof.
  intros (x & -> & Hx) (y & -> & Hy). exists (x ++ y)%list.
  split; [now rewrite app_assoc|].
  intros u Hu. apply in_app_or in Hu. destruct Hu; auto.
Qed.

Lemma addAll_Grows (response : ApiResponse) (set : list string) :
  Grows set (addAll (artifactUrls response) set).
Proof.
  destruct (addAll_extends (artifactUrls response) set) as (added & H & Hadded).
  exists added. split; [exact H|].
  intros u Hu. destruct (Hadded u Hu) as [Hin _].
  unfold artifactUrls in Hin. apply in_map_iff in Hin.
  destruct Hin as (item & <- & _). eauto.
Qed.

Lemma performSearch_files (net : Network) (page : Page) (c : SearchCriteria)
  (operator : string) :
  filesToDownload (fst (performSearch net page c operator)) = filesToDownload page
  \/ exists response,
       filesToDownload (fst (performSearch net page c operator))
       = addAll (artifactUrls response) (filesToDownload page).
Proof.
  unfold performSearch.
  destruct (container page); [|now left].
  destruct (hasAtLeastOneCriterion c); cbn [negb]; [|now left].
  destruct (searchDois net c operator) as [[response|e] requests]; [|now left].
  destruct (renderResults_files (filesToDownload page) response c) as [nodes ->].
  right. exists response. reflexivity.
Qed.

Lemma step_Grows (page : Page) (e : Event) :
  Grows (filesToDownload page) (filesToDownload (fst (step page e))).
Proof.
  destruct e as [net c operator | net]; cbn [step].
  - destruct (performSearch_files net page c operator) as [-> | [response ->]].
    + apply Grows_refl.
    + apply addAll_Grows.
  - destruct (container page) as [nodes|]; [|apply Grows_refl].
    destruct (hasArmedButton nodes); apply Grows_refl.
Qed.

Lemma step_NoDup (page : Page) (e : Event) :
  NoDup (filesToDownload page) -> NoDup (filesToDownload (fst (step page e))).
Proof.
  intros Hpage. destruct e as [net c operator | net]; cbn [step].
  - destruct (performSearch_files net page c operator) as [-> | [response ->]].
    + exact Hpage.
    + now apply addAll_NoDup.
  - destruct (container page) as [nodes|]; [|exact Hpage].
    destruct (hasArmedButton nodes); exact Hpage.
Qed.

Lemma run_cons (page : Page) (e : Event) (events : list Event) :
  fst (run page (e :: events)) = fst (run (fst (step page e)) events).
Proof.
  cbn [run]. destruct (step page e) as [page' effects].
  cbn [fst]. destruct (run page' events). reflexivity.
Qed.

Lemma run_Grows (page : Page) (events : list Event) :
  Grows (filesToDownload page) (filesToDownload (fst (run page events))).
Proof.
  revert page. induction events as [|e events IH]; intros page.
  - apply Grows_refl.
  - rewrite run_cons.
    exact (Grows_trans _ _ _ (step_Grows page e) (IH _)).
Qed.

Lemma run_NoDup (page : Page) (events : list Event) :
  NoDup (filesToDownload page) ->
  NoDup (filesToDownload (fst (run page events))).
Proof.
  revert page. induction events as [|e events IH]; intros page Hpage.
  - exact Hpage.
  - rewrite run_cons. apply IH. now apply step_NoDup.
Qed.

End FilesToDownload.

(** C9.  The set [filesToDownload] only grows.  [renderResults] leaves
    it as it is after [add] of the artifact URL of each record of the
    response, in order: what was in the set stays, in its place; what is
    new is the URL [https://static.prod.raid.org.au/raids/<doi>.download/]
    of a rendered record; every rendered record has its URL in the set, and
    no URL is in it twice.  A click on the download button reads the set
    and leaves the page as it is.  So over any sequence of searches and
    clicks the set at the start is a prefix of the set at the end: nothing
    is removed and the set is never reset. *)
Theorem filesToDownload_grows_monotonically :
  (forall files response c,
     exists nodes,
       renderResults files response c
       = (Normal tt, nodes, addAll (artifactUrls response) files))
  /\ (forall urls files,
        (exists added,
           addAll urls files = (files ++ added)%list
           /\ forall u, In u added -> In u urls /\ ~ In u files)
        /\ (forall u, In u urls -> In u (addAll urls files))
        /\ (NoDup files -> NoDup (addAll urls files)))
  /\ (forall page net, fst (step page (ClickDownload net)) = page)
  /\ (forall page events,
        exists added,
          filesToDownload (fst (run page events))
          = (filesToDownload page ++ added)%list
          /\ forall u, In u added ->
               exists doi,
                 u = "https://static.prod.raid.org.au/raids/" ++ doi
                       ++ ".download/")
  /\ (forall events, NoDup (filesToDownload (fst (run initialPage events)))).
Proof.
  split; [exact renderResults_files|].
  split.
  { intros urls files. split; [apply addAll_extends|].
    split; [intros u; apply addAll_has | apply addAll_NoDup]. }
  split.
  { intros page net. cbn [step].
    destruct (container page) as [nodes|]; [|reflexivity].
    destruct (hasArmedButton nodes); reflexivity. }
  split.
  { intros page events. exact (run_Grows page events). }
  intros events. apply run_NoDup. constructor.
Qed.

Lemma filesToDownload_grows_monotonically_witness :
  exists added,
    filesToDownload
      (fst (run (mkPage [artifactUrl "10.1234/xyz"] (Some []))
              [Submit threeRecords (describedBy "plan") "AND";
               ClickDownload threeRecords;
               Submit deadNetwork (describedBy "plan") "OR"]))
    = ([artifactUrl "10.1234/xyz"] ++ added)%list
    /\ forall u, In u added ->
         exists doi,
           u = "https://static.prod.raid.org.au/raids/" ++ doi ++ ".download/".
Proof.
  destruct filesToDownload_grows_monotonically as (_ & _ & _ & H & _).
  exact (H (mkPage [artifactUrl "10.1234/xyz"] (Some []))
           [Submit threeRecords (describedBy "plan") "AND";
            ClickDownload threeRecords;
            Submit deadNetwork (describedBy "plan") "OR"]).
Defined.

Example session_accumulates :
  filesToDownload
    (fst (run initialPage
            [Submit threeRecords (describedBy "plan") "AND";
             ClickDownload threeRecords;
             Submit deadNetwork (describedBy "plan") "OR";
             Submit threeRecords (describedBy "data") "AND"]))
  = ["https://static.prod.raid.org.au/raids/10.1234/abc.download/";
     "https://static.prod.raid.org.au/raids/10.1234/def.download/"].
Proof. reflexivity. Qed.

(** ** Claims on the batch download *)

Section BatchDownload.

Lemma includes_append_char (sep : ascii) (s : string) :
  JS.includes (String sep EmptyString) (s ++ String sep EmptyString) = true.
Proof.
  induction s as [|c s IH]; cbn [append].
  - rewrite includes_char_cons, Ascii.eqb_refl. reflexivity.
  - rewrite includes_char_cons, IH. apply orb_true_r.
Qed.

Lemma finalSegment_trailing_slash (s : string) :
  finalSegment (s ++ "/") = EmptyString.
Proof.
  induction s as [|c s IH]; [reflexivity|].
  cbn [append finalSegment]. now rewrite includes_append_char.
Qed.

(** An artifact URL ends in a slash: its final segment is empty. *)
Lemma finalSegment_artifactUrl (doi : string) :
  finalSegment (artifactUrl doi) = EmptyString.
Proof.
  unfold artifactUrl.
  change (".download/") with (".download" ++ "/").
  rewrite <- !append_assoc. apply finalSegment_trailing_slash.
Qed.

Lemma downloadOne_name (net : Network) (u url name : string) :
  In (Download url name) (downloadOne net u) ->
  url = u
  /\ exists prefix suffixWithDot rest,
       JS.sliceLast3 (JS.split "/" url) = prefix :: suffixWithDot :: rest
       /\ name
          = JS.orElse (finalSegment url)
              ("raid-" ++ prefix ++ "-" ++ upToFirstDot suffixWithDot ++ ".json").
Proof.
  unfold downloadOne.
  destruct (JS.truthy u); cbn [negb]; [|intros []].
  destruct (nth_error (JS.sliceLast3 (JS.split "/" u)) 1)
    as [suffixWithDot|] eqn:Hsecond.
  - destruct (blob net u) as [body|e].
    + intros [H | [H | []]]; [discriminate H|].
      injection H as <- <-. split; [reflexivity|].
      destruct (JS.sliceLast3 (JS.split "/" u)) as [|prefix [|second rest]];
        try discriminate Hsecond.
      cbn in Hsecond. injection Hsecond as ->.
      exists prefix, suffixWithDot, rest. split; [reflexivity|].
      assert (Hfirst := first_split_upToFirstDot suffixWithDot).
      cbn [nth_error] in Hfirst.
      rewrite pop_split_finalSegment, Hfirst.
      reflexivity.
    + intros [H | [H | []]]; discriminate H.
  - intros [H | []]. discriminate H.
Qed.

End BatchDownload.

(** C8.  For every URL the batch download saves, the file name is the
    text behind the last slash of the URL when that is not empty, and
    otherwise [raid-<prefix>-<suffix>.json], [prefix] being the first of
    the last three parts of the URL split at its slashes and [suffix] the
    second of them up to its first dot.  The URLs of the set end in a
    slash, so they are saved under the fallback name: the record
    10.1234/abc as [raid-10.1234-abc.json]. *)
Theorem download_file_name
  (net : Network) (urls : list string) (url name : string) :
  In (Download url name) (downloadFiles net urls) ->
  In url urls
  /\ (exists prefix suffixWithDot rest,
        JS.sliceLast3 (JS.split "/" url) = prefix :: suffixWithDot :: rest
        /\ name
           = if JS.truthy (finalSegment url) then finalSegment url
             else "raid-" ++ prefix ++ "-" ++ upToFirstDot suffixWithDot
                    ++ ".json")
  /\ (forall doi, finalSegment (artifactUrl doi) = EmptyString)
  /\ downloadFiles threeRecords [artifactUrl "10.1234/abc"]
     = [Request "https://static.prod.raid.org.au/raids/10.1234/abc.download/";
        Download "https://static.prod.raid.org.au/raids/10.1234/abc.download/"
          "raid-10.1234-abc.json"].
Proof.
  intros Hin. unfold downloadFiles in Hin. apply in_flat_map in Hin.
  destruct Hin as (u & Hu & Hin).
  destruct (downloadOne_name net u url name Hin) as (-> & Hname).
  split; [exact Hu|]. split; [exact Hname|].
  split; [exact finalSegment_artifactUrl | reflexivity].
Qed.

Lemma download_file_name_witness :
  exists prefix suffixWithDot rest,
    JS.sliceLast3 (JS.split "/" "https://api.datacite.org/dois/10.1234%2Fabc.json")
    = prefix :: suffixWithDot :: rest
    /\ "10.1234%2Fabc.json"
       = if JS.truthy (finalSegment "https://api.datacite.org/dois/10.1234%2Fabc.json")
         then finalSegment "https://api.datacite.org/dois/10.1234%2Fabc.json"
         else "raid-" ++ prefix ++ "-" ++ upToFirstDot suffixWithDot ++ ".json".
Proof.
  destruct (download_file_name threeRecords
              ["https://api.datacite.org/dois/10.1234%2Fabc.json"]
              "https://api.datacite.org/dois/10.1234%2Fabc.json"
              "10.1234%2Fabc.json") as (_ & H & _).
  - right. left. reflexivity.
  - exact H.
Defined.

(** ** Further properties of the highlight engine *)

Section HighlightFurther.

Lemma Highlighted_length (query text out : string) :
  Highlighted query text out -> String.length text <= String.length out.
Proof.
  induction 1 as [|m rest out Hm H IH|c rest out Hno H IH]; cbn.
  - lia.
  - rewrite !length_append in *. cbn. lia.
  - lia.
Qed.

Lemma occursIn_tail (query : string) (c : ascii) (rest : string) :
  occursIn query rest -> occursIn query (String c rest).
Proof.
  intros (b & m & a & -> & Hm). exists (String c b), m, a. split; auto.
Qed.

Lemma Highlighted_without_occurrence (query text out : string) :
  Highlighted query text out -> ~ occursIn query text -> out = text.
Proof.
  induction 1 as [|m rest out Hm H IH|c rest out Hno H IH]; intros Hnone.
  - reflexivity.
  - exfalso. apply Hnone. exists EmptyString, m, rest. split; auto.
  - rewrite IH; [reflexivity|].
    intros Hocc. apply Hnone. now apply occursIn_tail.
Qed.

Lemma Highlighted_same_length (query text out : string) :
  query <> EmptyString ->
  Highlighted query text out ->
  String.length out = String.length text -> ~ occursIn query text.
Proof.
  intros Hq.
  induction 1 as [|m rest out Hm H IH|c rest out Hno H IH]; intros Hlen.
  - intros (b & m & a & Ht & Hm). destruct b; [|discriminate Ht].
    destruct m; [|discriminate Ht].
    apply sameIgnoringCase_length in Hm. destruct query; [congruence|].
    discriminate Hm.
  - exfalso. apply Highlighted_length in H.
    rewrite !length_append in Hlen. cbn in Hlen. lia.
  - cbn in Hlen. injection Hlen as Hlen.
    intros (b & m & a & Ht & Hm).
    destruct b as [|c' b].
    + exact (Hno m a Ht Hm).
    + cbn in Ht. injection Ht as _ Ht.
      apply (IH Hlen). exists b, m, a. split; auto.
Qed.

Lemma matchAtoms_canonical (atoms atoms' : list ascii) (s : string) :
  map JS.canonicalize atoms = map JS.canonicalize atoms' ->
  JS.matchAtoms true atoms s = JS.matchAtoms true atoms' s.
Proof.
  revert atoms' s.
  induction atoms as [|a atoms IH]; intros [|a' atoms'] s H;
    try discriminate H; [reflexivity|].
  cbn in H. injection H as Ha Hrest.
  destruct s as [|c s]; [reflexivity|].
  cbn. rewrite Ha, (IH atoms' s Hrest). reflexivity.
Qed.

Lemma replaceFrom_ext (re re' : JS.RegExp) (template : string) :
  (forall s, JS.matchAt re s = JS.matchAt re' s) ->
  (forall m, JS.captures re m = JS.captures re' m) ->
  forall s skip,
    JS.replaceFrom re template skip s = JS.replaceFrom re' template skip s.
Proof.
  intros Hmatch Hcaps.
  induction s as [|c s IH]; intros [|k]; cbn [JS.replaceFrom];
    rewrite <- ?Hmatch; try reflexivity.
  - destruct (JS.matchAt re EmptyString) as [[m r]|]; [|reflexivity].
    now rewrite Hcaps.
  - destruct (JS.matchAt re (String c s)) as [[m r]|].
    + rewrite Hcaps. destruct (String.length m); now rewrite IH.
    + now rewrite IH.
  - apply IH.
Qed.

Lemma highlighted_keeps_truthy (criterion text : string) :
  JS.truthy (highlighted criterion text) = JS.truthy text.
Proof.
  unfold highlighted.
  destruct criterion as [|c q]; [reflexivity|]. cbn [JS.truthy].
  assert (H : Highlighted (String c q) text
                (JS.replace (literally (String c q)) "<mark>$1</mark>" text))
    by (apply (replace_Highlighted (String c q) ltac:(discriminate) (String.length text));
        lia).
  destruct text as [|d text].
  - reflexivity.
  - apply Highlighted_length in H.
    destruct (JS.replace _ _ _); [cbn in H; lia | reflexivity].
Qed.

End HighlightFurther.

(** X1.  [highlightText] returns the text as it is exactly when the query
    is empty or occurs nowhere in the text, in any letter case: an
    occurrence always shows. *)
Theorem highlightText_unchanged_iff (text query : string) :
  highlightText text query = Normal text
  <-> query = EmptyString \/ ~ occursIn query text.
Proof.
  destruct query as [|c q].
  - split; [now left | reflexivity].
  - rewrite highlightText_replace by discriminate.
    assert (H : Highlighted (String c q) text
                  (JS.replace (literally (String c q)) "<mark>$1</mark>" text))
      by (apply (replace_Highlighted (String c q) ltac:(discriminate) (String.length text));
          lia).
    split.
    + intros Heq. injection Heq as Heq. right. rewrite Heq in H.
      apply (Highlighted_same_length (String c q) text text ltac:(discriminate) H eq_refl).
    + intros [Hempty | Hnone]; [discriminate Hempty|].
      f_equal. exact (Highlighted_without_occurrence _ _ _ H Hnone).
Qed.

Lemma highlightText_unchanged_iff_witness :
  ~ occursIn "plan" "Data Management"
  /\ highlightText "Data Management" "plan" = Normal "Data Management".
Proof.
  assert (H : highlightText "Data Management" "plan" = Normal "Data Management")
    by reflexivity.
  split; [|exact H].
  destruct (proj1 (highlightText_unchanged_iff "Data Management" "plan") H)
    as [Hempty | Hnone]; [discriminate Hempty | exact Hnone].
Defined.

(** X2.  Queries that differ in letter case only give the same result:
    the letter case of the query never shows in the output. *)
Theorem highlightText_query_case (text query query' : string) :
  sameIgnoringCase query query' ->
  highlightText text query = highlightText text query'.
Proof.
  intros Hsame.
  assert (Hlen := sameIgnoringCase_length _ _ Hsame).
  destruct query as [|c q], query' as [|c' q']; try discriminate Hlen.
  - reflexivity.
  - rewrite !highlightText_replace by discriminate.
    f_equal. unfold JS.replace. apply replaceFrom_ext.
    + intros s. unfold JS.matchAt. cbn [JS.pattern literally JS.ignoreCase].
      now apply matchAtoms_canonical.
    + reflexivity.
Qed.

Lemma highlightText_query_case_witness :
  highlightText "Data and data" "DATA" = highlightText "Data and data" "data".
Proof.
  apply (highlightText_query_case "Data and data" "DATA" "data").
  reflexivity.
Defined.

(** X3.  With exactly one field that is not empty the operator does not
    reach the query: AND, OR or any other operator give the same query
    string and the same request. *)
Theorem single_clause_ignores_operator
  (apiUrl : string) (c : SearchCriteria) (operator operator' : string) :
  List.length (filter JS.truthy (values c)) = 1 ->
  queryString c operator = queryString c operator'
  /\ requestUrl apiUrl c operator = requestUrl apiUrl c operator'.
Proof.
  intros H.
  assert (Hq : queryString c operator = queryString c operator').
  { destruct c as [t d cr r o]. unfold values in H. cbn in H.
    destruct t, d, cr, r, o; cbn in H; try discriminate H; reflexivity. }
  split; [exact Hq|]. unfold requestUrl. now rewrite Hq.
Qed.

Lemma single_clause_ignores_operator_witness :
  queryString (describedBy "soil") "AND" = queryString (describedBy "soil") "OR".
Proof.
  apply (single_clause_ignores_operator "https://api.datacite.org/dois"
           (describedBy "soil") "AND" "OR").
  reflexivity.
Defined.

(** ** Further properties of the result projection *)

Section ProjectionFurther.

Lemma fold_links {A : Type} (key : A -> string) (f : string -> string)
  (l : list A) (acc : string) :
  fold_left (fun links x => links ++ f (key x) ++ " & ") l acc
  = acc ++ trail f (map key l).
Proof.
  revert acc. induction l as [|x l IH]; intros acc; cbn [fold_left map trail].
  - now rewrite append_nil_r.
  - now rewrite IH, !append_assoc.
Qed.

Lemma dropLast3_trail (f : string -> string) (values : list string) :
  values <> [] ->
  JS.dropLast3 (trail f values) = JS.join " & " (map f values).
Proof.
  intros H. rewrite trail_join by exact H.
  now apply dropLast3_append.
Qed.

Lemma truthy_join (sep x : string) (l : list string) :
  JS.truthy x = true -> JS.truthy (JS.join sep (x :: l)) = true.
Proof.
  intros H. destruct x as [|c x]; [discriminate H|].
  destruct l; reflexivity.
Qed.

Lemma filter_highlighted (criterion : string) (l : list string) :
  filter JS.truthy (map (highlighted criterion) l)
  = map (highlighted criterion) (filter JS.truthy l).
Proof.
  induction l as [|x l IH]; [reflexivity|].
  cbn [map filter]. rewrite highlighted_keeps_truthy, IH.
  destruct (JS.truthy x); reflexivity.
Qed.

Lemma creatorsLinks_join (attrs : Attributes) (c : SearchCriteria) :
  creatorsLinks attrs c
  = Normal
      (JS.join " & "
         (map (fun name => anchor name (highlighted (creator c) name))
            (creatorNames attrs))).
Proof.
  unfold creatorsLinks, creatorNames.
  destruct (creators attrs) as [[|x xs]|]; try reflexivity.
  rewrite (forOf_normal _
             (fun links aCreator =>
                links ++ anchor (Creator.name aCreator)
                           (highlighted (creator c) (Creator.name aCreator))
                  ++ " & "))
    by (intros links aCreator; now rewrite highlightIf_highlighted).
  cbn [bind].
  rewrite (fold_links Creator.name
             (fun name => anchor name (highlighted (creator c) name))).
  cbn [append]. now rewrite dropLast3_trail by discriminate.
Qed.

Lemma relatedIdentifiersLinks_join (attrs : Attributes) (c : SearchCriteria) :
  relatedIdentifiersLinks attrs c
  = Normal
      (JS.join " & "
         (map (fun value => anchor value (highlighted (related c) value))
            (relatedValues attrs))).
Proof.
  unfold relatedIdentifiersLinks, relatedValues.
  destruct (relatedIdentifiers attrs) as [[|x xs]|]; try reflexivity.
  rewrite (forOf_normal _
             (fun links relatedId =>
                links ++ anchor (RelatedIdentifier.relatedIdentifier relatedId)
                           (highlighted (related c)
                              (RelatedIdentifier.relatedIdentifier relatedId))
                  ++ " & "))
    by (intros links relatedId; now rewrite highlightIf_highlighted).
  cbn [bind].
  rewrite (fold_links RelatedIdentifier.relatedIdentifier
             (fun value => anchor value (highlighted (related c) value))).
  cbn [append]. now rewrite dropLast3_trail by discriminate.
Qed.

Lemma orElse_join_anchors (placeholder : string) (shown : string -> string)
  (values : list string) :
  JS.orElse (JS.join " & " (map (fun v => anchor v (shown v)) values)) placeholder
  = linksOr placeholder (map (fun v => anchor v (shown v)) values).
Proof.
  destruct values as [|v [|w vs]]; reflexivity.
Qed.

Lemma titlesLine_join (attrs : Attributes) (c : SearchCriteria) :
  titlesLine attrs c
  = Normal
      (match filter JS.truthy (titleTexts attrs) with
       | [] => "No Title"
       | texts => JS.join " | " (map (highlighted (title c)) texts)
       end).
Proof.
  unfold titlesLine, titleTexts.
  destruct (titles attrs) as [ts|]; [|reflexivity].
  rewrite (mapM_normal _ (fun t => highlighted (title c) (Title.title t)))
    by (intros t; apply highlightIf_highlighted).
  cbn [bind].
  rewrite <- (map_map Title.title (highlighted (title c))), filter_highlighted.
  destruct (filter JS.truthy (map Title.title ts)) as [|x l] eqn:Hf;
    [reflexivity|].
  cbn [map]. unfold JS.orElse. rewrite truthy_join; [reflexivity|].
  rewrite highlighted_keeps_truthy.
  assert (Hin : In x (filter JS.truthy (map Title.title ts)))
    by (rewrite Hf; now left).
  apply filter_In in Hin. tauto.
Qed.

End ProjectionFurther.

(** X4.  The title line is the titles of the record that are not empty,
    each highlighted with the title criterion, joined by " | "; empty
    titles are dropped, and "No Title" stands for a record with no title
    left.  Without a title criterion the titles are shown as they are. *)
Theorem titles_projection (attrs : Attributes) (c : SearchCriteria) :
  titlesLine attrs c
  = Normal
      (match filter JS.truthy (titleTexts attrs) with
       | [] => "No Title"
       | texts => JS.join " | " (map (highlighted (title c)) texts)
       end)
  /\ (title c = EmptyString ->
      titlesLine attrs c
      = Normal
          (match filter JS.truthy (titleTexts attrs) with
           | [] => "No Title"
           | texts => JS.join " | " texts
           end)).
Proof.
  split; [apply titlesLine_join|].
  intros Hc. rewrite titlesLine_join, Hc.
  destruct (filter JS.truthy (titleTexts attrs)) as [|x l]; [reflexivity|].
  unfold highlighted. cbn [JS.truthy]. now rewrite map_id.
Qed.

Lemma titles_projection_witness :
  titlesLine
    (mkAttributes "10.1234/abc"
       (Some [Title.mk "Soil data" None None; Title.mk EmptyString None None;
              Title.mk "Bodendaten" None (Some "de")])
       None None None None)
    noCriteria
  = Normal "Soil data | Bodendaten".
Proof.
  apply (proj2 (titles_projection
                  (mkAttributes "10.1234/abc"
                     (Some [Title.mk "Soil data" None None;
                            Title.mk EmptyString None None;
                            Title.mk "Bodendaten" None (Some "de")])
                     None None None None)
                  noCriteria)).
  reflexivity.
Defined.

(** X5.  The creators line has one link per creator, in order, joined by
    " & ": its target is the creator's name itself and its text the name
    highlighted with the creator criterion; "No creators" stands for a
    record without creators.  The related-identifiers line is built the
    same way from the identifier values and the related criterion, with
    "No related identifiers" as its placeholder. *)
Theorem link_lists_projection (attrs : Attributes) (c : SearchCriteria) :
  (exists links,
     creatorsLinks attrs c = Normal links
     /\ JS.orElse links "No creators"
        = linksOr "No creators"
            (map (fun name => hyperlink name (highlighted (creator c) name))
               (creatorNames attrs)))
  /\ (exists links,
        relatedIdentifiersLinks attrs c = Normal links
        /\ JS.orElse links "No related identifiers"
           = linksOr "No related identifiers"
               (map (fun value => hyperlink value (highlighted (related c) value))
                  (relatedValues attrs)))
  /\ creatorsLinks twoCreators
       (mkSearchCriteria EmptyString EmptyString "doe" EmptyString EmptyString)
     = Normal
         ("<a href=" ++ doubleQuote ++ "Doe, Jane" ++ doubleQuote
            ++ " target=" ++ doubleQuote ++ "_blank" ++ doubleQuote
            ++ "><mark>Doe</mark>, Jane</a>"
            ++ " & "
            ++ "<a href=" ++ doubleQuote ++ "Roe, Richard" ++ doubleQuote
            ++ " target=" ++ doubleQuote ++ "_blank" ++ doubleQuote
            ++ ">Roe, Richard</a>")
  /\ relatedIdentifiersLinks twoCreators
       (mkSearchCriteria EmptyString EmptyString EmptyString "10.5" EmptyString)
     = Normal
         ("<a href=" ++ doubleQuote ++ "https://doi.org/10.5/x" ++ doubleQuote
            ++ " target=" ++ doubleQuote ++ "_blank" ++ doubleQuote
            ++ ">https://doi.org/<mark>10.5</mark>/x</a>"
            ++ " & "
            ++ "<a href=" ++ doubleQuote ++ "10.5/y" ++ doubleQuote
            ++ " target=" ++ doubleQuote ++ "_blank" ++ doubleQuote
            ++ "><mark>10.5</mark>/y</a>").
Proof.
  split; [|split; [|split; reflexivity]]; eexists; split.
  - apply creatorsLinks_join.
  - exact (orElse_join_anchors "No creators" (highlighted (creator c))
             (creatorNames attrs)).
  - apply relatedIdentifiersLinks_join.
  - exact (orElse_join_anchors "No related identifiers"
             (highlighted (related c)) (relatedValues attrs)).
Qed.

Lemma link_lists_projection_witness :
  (exists links,
     creatorsLinks twoCreators noCriteria = Normal links
     /\ JS.orElse links "No creators"
        = "<a href=" ++ doubleQuote ++ "Doe, Jane" ++ doubleQuote
            ++ " target=" ++ doubleQuote ++ "_blank" ++ doubleQuote
            ++ ">Doe, Jane</a>"
            ++ " & "
            ++ "<a href=" ++ doubleQuote ++ "Roe, Richard" ++ doubleQuote
            ++ " target=" ++ doubleQuote ++ "_blank" ++ doubleQuote
            ++ ">Roe, Richard</a>")
  /\ (exists links,
        relatedIdentifiersLinks (attributes (bareItem "10.1234/abc")) noCriteria
        = Normal links
        /\ JS.orElse links "No related identifiers" = "No related identifiers").
Proof.
  destruct (link_lists_projection twoCreators noCriteria)
    as ((creators & Hc & Hshown) & _).
  destruct (link_lists_projection (attributes (bareItem "10.1234/abc")) noCriteria)
    as (_ & (related & Hr & Hnone) & _).
  split.
  - exists creators. split; [exact Hc|]. rewrite Hshown. reflexivity.
  - exists related. split; [exact Hr|]. rewrite Hnone. reflexivity.
Defined.

(** X6.  [createResultElement] never throws, whatever the record and the
    criteria hold (regular-expression metacharacters included): each of
    its six lines is computed, and the element has the class
    "search-result" and the markup of lines 321-330 around them. *)
Theorem createResultElement_never_throws (item : Item) (c : SearchCriteria) :
  exists titles doi creators related organisations description,
    titlesLine (attributes item) c = Normal titles
    /\ doiLink (attributes item) c = Normal doi
    /\ creatorsLinks (attributes item) c = Normal creators
    /\ relatedIdentifiersLinks (attributes item) c = Normal related
    /\ organisationsLinks (attributes item) c = Normal organisations
    /\ descriptionLine (attributes item) c = Normal description
    /\ createResultElement item c
       = Normal
           (mkHTMLElement "search-result"
              (resultMarkup titles doi
                 (JS.orElse creators "No creators")
                 (JS.orElse related "No related identifiers")
                 (JS.orElse organisations "No organisations")
                 description)).
Proof.
  unfold createResultElement.
  destruct (titlesLine_returns (attributes item) c) as [l1 H1].
  destruct (doiLink_returns (attributes item) c) as [l2 H2].
  destruct (creatorsLinks_returns (attributes item) c) as [l3 H3].
  destruct (relatedIdentifiersLinks_returns (attributes item) c) as [l4 H4].
  assert (H5 := organisationsLinks_trail c (attributes item)).
  destruct (descriptionLine_returns (attributes item) c) as [l6 H6].
  exists l1, l2, l3, l4.
  eexists. exists l6.
  rewrite H1, H2, H3, H4, H5, H6. cbn [bind].
  repeat (split; [reflexivity|]). reflexivity.
Qed.

(** ** Further properties of rendering and of the search action *)

Section RenderingFurther.

Lemma mapM_createResultElement (c : SearchCriteria) (items : list Item) :
  exists elements,
    mapM (fun item => createResultElement item c) items = Normal elements
    /\ List.length elements = List.length items.
Proof.
  induction items as [|item items (elements & IH & Hlen)].
  - exists []. split; reflexivity.
  - destruct (createResultElement_returns item c) as [element He].
    exists (element :: elements). cbn [mapM]. rewrite He, IH. cbn.
    split; [reflexivity | now rewrite Hlen].
Qed.

Lemma renderItems_nodes (c : SearchCriteria) (items : list Item) :
  forall (nodes : list Node) (files : list string) (elements : list HTMLElement),
    mapM (fun item => createResultElement item c) items = Normal elements ->
    renderItems c items nodes files
    = (Normal tt, (nodes ++ map Result elements)%list,
       addAll (map (fun item => artifactUrl (doi (attributes item))) items) files).
Proof.
  induction items as [|item items IH]; intros nodes files elements H.
  - cbn in H. injection H as <-. cbn. now rewrite app_nil_r.
  - cbn [mapM] in H. cbn [renderItems].
    destruct (createResultElement item c) as [element|e]; [|discriminate H].
    cbn [bind] in H.
    destruct (mapM (fun item => createResultElement item c) items)
      as [rest|e] eqn:Hrest; [|discriminate H].
    cbn [bind] in H. injection H as <-.
    rewrite (IH _ _ rest eq_refl). cbn [map]. now rewrite <- app_assoc.
Qed.

Lemma armButton_results (elements : list HTMLElement) :
  map armButton (map Result elements) = map Result elements.
Proof. rewrite map_map. apply map_ext. reflexivity. Qed.

Lemma renderResults_nodes (files : list string) (response : ApiResponse)
  (c : SearchCriteria) :
  data response <> [] ->
  exists elements,
    mapM (fun item => createResultElement item c) (data response)
    = Normal elements
    /\ List.length elements = List.length (data response)
    /\ renderResults files response c
       = (Normal tt,
          Button "download-results" "Download Results" true
            :: map Result elements,
          addAll (artifactUrls response) files).
Proof.
  intros Hdata.
  destruct (mapM_createResultElement c (data response))
    as (elements & Hmap & Hlen).
  exists elements. split; [exact Hmap|]. split; [exact Hlen|].
  unfold renderResults, artifactUrls.
  destruct (data response) as [|item items] eqn:Hd; [congruence|].
  rewrite (renderItems_nodes c (item :: items) _ _ elements Hmap).
  cbn [app map armButton]. now rewrite armButton_results.
Qed.

Lemma addAll_present (urls set : list string) :
  (forall u, In u urls -> In u set) -> addAll urls set = set.
Proof.
  unfold addAll. induction urls as [|x urls IH]; intros H; [reflexivity|].
  cbn [fold_left]. unfold setAdd.
  rewrite (proj2 (setHas_In x set) (H x (or_introl eq_refl))).
  apply IH. intros u Hu. apply H. now right.
Qed.

Lemma addAll_length (urls set : list string) :
  List.length (addAll urls set) <= List.length set + List.length urls.
Proof.
  unfold addAll. revert set.
  induction urls as [|x urls IH]; intros set; cbn [fold_left List.length].
  - lia.
  - specialize (IH (setAdd x set)). unfold setAdd in *.
    destruct (setHas x set); [lia|].
    rewrite length_app in IH. cbn in IH. lia.
Qed.

End RenderingFurther.

(** X7.  [renderResults] with no record shows "No results found", no
    button, and leaves the set of files as it is.  With records it shows
    the download button, its listener attached, followed by one result
    element per record, in the order of the response, and adds the
    records' artifact URLs to the set. *)
Theorem renderResults_shape (files : list string) (response : ApiResponse)
  (c : SearchCriteria) :
  (data response = [] ->
   renderResults files response c
   = (Normal tt, [Markup "<p>No results found</p>"], files))
  /\ (data response <> [] ->
      exists elements,
        mapM (fun item => createResultElement item c) (data response)
        = Normal elements
        /\ List.length elements = List.length (data response)
        /\ renderResults files response c
           = (Normal tt,
              Button "download-results" "Download Results" true
                :: map Result elements,
              addAll (artifactUrls response) files)).
Proof.
  split.
  - intros H. unfold renderResults. now rewrite H.
  - apply renderResults_nodes.
Qed.

Lemma renderResults_shape_witness :
  renderResults [artifactUrl "10.1234/abc"] (mkApiResponse []) noCriteria
  = (Normal tt, [Markup "<p>No results found</p>"], [artifactUrl "10.1234/abc"])
  /\ exists elements,
       List.length elements = 2
       /\ fst (renderResults []
                 (mkApiResponse [bareItem "10.1234/abc"; bareItem "10.1234/def"])
                 noCriteria)
          = (Normal tt,
             Button "download-results" "Download Results" true
               :: map Result elements).
Proof.
  split.
  - apply (proj1 (renderResults_shape [artifactUrl "10.1234/abc"]
                    (mkApiResponse []) noCriteria)).
    reflexivity.
  - destruct (proj2 (renderResults_shape []
                       (mkApiResponse
                          [bareItem "10.1234/abc"; bareItem "10.1234/def"])
                       noCriteria))
      as (elements & _ & Hlen & H); [discriminate|].
    exists elements. split; [exact Hlen|]. now rewrite H.
Defined.

(** X8.  Rendering a response a second time adds nothing to the set of
    files, whatever the criteria of the second search, and one rendering
    adds at most one URL per record. *)
Theorem rendering_again_adds_nothing (files : list string)
  (response : ApiResponse) (c c' : SearchCriteria) :
  snd (renderResults (snd (renderResults files response c)) response c')
  = snd (renderResults files response c)
  /\ List.length (snd (renderResults files response c))
     <= List.length files + List.length (data response).
Proof.
  destruct (renderResults_files files response c) as [nodes ->].
  cbn [snd].
  destruct (renderResults_files (addAll (artifactUrls response) files) response c')
    as [nodes' ->].
  cbn [snd]. split.
  - apply addAll_present. intros u Hu. now apply addAll_has.
  - rewrite <- (length_map (fun item => artifactUrl (doi (attributes item)))
                  (data response)).
    apply addAll_length.
Qed.

Section SearchAction.

Lemma searchDois_single (net : Network) (c : SearchCriteria) (operator : string) :
  hasAtLeastOneQuery c = true ->
  searchDois net c operator
  = (Normal
       (mkApiResponse
          (data (answerOf
                   (respond net
                      (requestUrl "https://api.datacite.org/dois" c operator))))),
     [Request (requestUrl "https://api.datacite.org/dois" c operator)]).
Proof.
  intros H. unfold searchDois, apis.
  rewrite H. cbn [negb map fold_left concat fst snd app].
  rewrite (searchSingleApi_request _ _ _ _ (hasAtLeastOneQuery_parts c H)).
  cbn [fst snd]. unfold combine.
  destruct (respond net _); reflexivity.
Qed.

Lemma renderResults_no_error (files : list string) (response : ApiResponse)
  (c : SearchCriteria) :
  exists nodes,
    renderResults files response c
    = (Normal tt, nodes, addAll (artifactUrls response) files)
    /\ nodes <> errorMarkup.
Proof.
  destruct (data response) as [|item items] eqn:Hd.
  - exists [Markup "<p>No results found</p>"]. split; [|discriminate].
    unfold renderResults, artifactUrls. now rewrite Hd.
  - destruct (renderResults_nodes files response c) as (elements & _ & _ & H).
    + rewrite Hd. discriminate.
    + eexists. split; [exact H | discriminate].
Qed.

End SearchAction.

(** X9.  The search action.  Without a results container it logs an error
    and does nothing else.  With all five fields blank it raises the alert,
    sends no request and leaves the page as it is.  Otherwise it sends
    exactly one request, to the DataCite endpoint with the compiled query,
    and renders the answer (a response of the declared type, with its
    [data] array); a failed request is rendered like an answer without
    records ("No results found"), so that the message "Error fetching
    results" is not shown and nothing is logged. *)
Theorem performSearch_outcomes
  (net : Network) (page : Page) (c : SearchCriteria) (operator : string) :
  (container page = None ->
   performSearch net page c operator
   = (page, [ConsoleError "Results container not found"]))
  /\ (container page <> None -> Forall blank (values c) ->
      performSearch net page c operator
      = (page, [Alert "Please enter at least one search term"]))
  /\ (container page <> None -> Exists (fun value => ~ blank value) (values c) ->
      exists nodes,
        renderResults (filesToDownload page)
          (answerOf
             (respond net
                (requestUrl "https://api.datacite.org/dois" c operator)))
          c
        = (Normal tt, nodes,
           addAll
             (artifactUrls
                (answerOf
                   (respond net
                      (requestUrl "https://api.datacite.org/dois" c operator))))
             (filesToDownload page))
        /\ nodes <> errorMarkup
        /\ performSearch net page c operator
           = (mkPage
                (addAll
                   (artifactUrls
                      (answerOf
                         (respond net
                            (requestUrl "https://api.datacite.org/dois" c
                               operator))))
                   (filesToDownload page))
                (Some nodes),
              [Request (requestUrl "https://api.datacite.org/dois" c operator)])).
Proof.
  split; [|split].
  - intros H. unfold performSearch. now rewrite H.
  - intros Hc Hblank. unfold performSearch.
    destruct (container page); [|congruence].
    unfold hasAtLeastOneCriterion.
    fold (hasAtLeastOneQuery c). now rewrite (all_blank_no_query c Hblank).
  - intros Hc Hvalid. apply hasAtLeastOneQuery_iff in Hvalid.
    destruct (renderResults_no_error (filesToDownload page)
                (answerOf
                   (respond net
                      (requestUrl "https://api.datacite.org/dois" c operator)))
                c) as (nodes & Hrender & Hnodes).
    exists nodes. split; [exact Hrender|]. split; [exact Hnodes|].
    unfold performSearch.
    destruct (container page); [|congruence].
    unfold hasAtLeastOneCriterion. fold (hasAtLeastOneQuery c).
    rewrite Hvalid. cbn [negb].
    rewrite (searchDois_single net c operator Hvalid).
    destruct (respond net _) as [response|e]; cbn [answerOf data] in *.
    + destruct response as [items]. cbn [data] in *. now rewrite Hrender.
    + now rewrite Hrender.
Qed.

Lemma performSearch_outcomes_witness :
  performSearch deadNetwork (mkPage [] None) (describedBy "soil") "AND"
  = (mkPage [] None, [ConsoleError "Results container not found"])
  /\ performSearch threeRecords resultsPage
       (mkSearchCriteria " " EmptyString EmptyString EmptyString EmptyString)
       "AND"
     = (resultsPage, [Alert "Please enter at least one search term"])
  /\ performSearch deadNetwork resultsPage (describedBy "soil") "AND"
     = (mkPage [artifactUrl "10.1234/abc"]
          (Some [Markup "<p>No results found</p>"]),
        [Request
           (requestUrl "https://api.datacite.org/dois" (describedBy "soil") "AND")]).
Proof.
  split; [|split].
  - apply (proj1 (performSearch_outcomes deadNetwork (mkPage [] None)
                    (describedBy "soil") "AND")).
    reflexivity.
  - apply (proj1 (proj2 (performSearch_outcomes threeRecords resultsPage
                           (mkSearchCriteria " " EmptyString EmptyString
                              EmptyString EmptyString)
                           "AND"))).
    + discriminate.
    + repeat constructor; intros ch Hin; cbn in Hin;
        repeat (destruct Hin as [<- | Hin]; [reflexivity|]); destruct Hin.
  - destruct (proj2 (proj2 (performSearch_outcomes deadNetwork resultsPage
                              (describedBy "soil") "AND")))
      as (nodes & Hrender & _ & H).
    + discriminate.
    + apply Exists_cons_tl, Exists_cons_hd.
      intros Hb. discriminate (Hb "s"%char (or_introl eq_refl)).
    + rewrite H. cbn in Hrender. injection Hrender as <-. reflexivity.
Defined.

(** ** Further properties of the batch download *)

Section DownloadFurther.

Lemma sliceLast3_length (l : list string) :
  List.length (JS.sliceLast3 l) = Nat.min 3 (List.length l).
Proof. unfold JS.sliceLast3. rewrite length_skipn. lia. Qed.

Lemma second_part_iff (url : string) :
  nth_error (JS.sliceLast3 (JS.split "/" url)) 1 = None
  <-> JS.includes "/" url = false.
Proof.
  rewrite nth_error_None, sliceLast3_length.
  destruct (JS.includes "/" url) eqn:Hs.
  - destruct (split_with "/" url Hs) as (p & q & rest & ->).
    cbn [List.length]. split; [lia | discriminate].
  - rewrite (split_without "/" url Hs). cbn. split; [reflexivity | lia].
Qed.

Lemma downloadOne_requests (net : Network) (url : string) :
  requestsOf (downloadOne net url) = if fetchable url then [url] else [].
Proof.
  unfold downloadOne, fetchable.
  destruct (JS.truthy url); cbn [negb andb]; [|reflexivity].
  destruct (nth_error (JS.sliceLast3 (JS.split "/" url)) 1) as [second|] eqn:H.
  - destruct (JS.includes "/" url) eqn:Hs.
    + destruct (blob net url); reflexivity.
    + apply second_part_iff in Hs. congruence.
  - apply second_part_iff in H. now rewrite H.
Qed.

Lemma downloadOne_saved (net : Network) (url : string) :
  map fst (savedOf (downloadOne net url))
  = if fetchable url && arrives net url then [url] else [].
Proof.
  unfold downloadOne, fetchable, arrives.
  destruct (JS.truthy url); cbn [negb andb]; [|reflexivity].
  destruct (nth_error (JS.sliceLast3 (JS.split "/" url)) 1) as [second|] eqn:H.
  - destruct (JS.includes "/" url) eqn:Hs.
    + destruct (blob net url); reflexivity.
    + apply second_part_iff in Hs. congruence.
  - apply second_part_iff in H. now rewrite H.
Qed.

Lemma requestsOf_app (a b : list Effect) :
  requestsOf (a ++ b) = (requestsOf a ++ requestsOf b)%list.
Proof. apply flat_map_app. Qed.

Lemma savedOf_app (a b : list Effect) :
  savedOf (a ++ b) = (savedOf a ++ savedOf b)%list.
Proof. apply flat_map_app. Qed.

Lemma downloadFiles_requestsOf (net : Network) (urls : list string) :
  requestsOf (downloadFiles net urls) = filter fetchable urls.
Proof.
  unfold downloadFiles.
  induction urls as [|url urls IH]; [reflexivity|].
  cbn [flat_map filter]. rewrite requestsOf_app, downloadOne_requests, IH.
  destruct (fetchable url); reflexivity.
Qed.

Lemma downloadFiles_savedOf (net : Network) (urls : list string) :
  map fst (savedOf (downloadFiles net urls))
  = filter (fun url => fetchable url && arrives net url) urls.
Proof.
  unfold downloadFiles.
  induction urls as [|url urls IH]; [reflexivity|].
  cbn [flat_map filter].
  rewrite savedOf_app, map_app, downloadOne_saved, IH.
  destruct (fetchable url && arrives net url); reflexivity.
Qed.

End DownloadFurther.

(** X10.  The batch download goes through the URLs in order and keeps
    going whatever happens to one of them: it sends one request for each
    URL that is not empty and has a slash, in list order, none for the
    others and none twice for the same entry; it saves one file for each
    requested URL whose file arrives, in the same order; and what it does
    for a URL does not depend on the URLs before or after it. *)
Theorem downloadFiles_isolates_failures (net : Network) (urls : list string) :
  requestsOf (downloadFiles net urls) = filter fetchable urls
  /\ map fst (savedOf (downloadFiles net urls))
     = filter (fun url => fetchable url && arrives net url) urls
  /\ forall before after,
       urls = (before ++ after)%list ->
       downloadFiles net urls
       = (downloadFiles net before ++ downloadFiles net after)%list.
Proof.
  split; [apply downloadFiles_requestsOf|].
  split; [apply downloadFiles_savedOf|].
  intros before after ->. apply flat_map_app.
Qed.

Lemma downloadFiles_isolates_failures_witness :
  requestsOf
    (downloadFiles
       (mkNetwork (fun _ => Normal (mkApiResponse []))
          (fun url =>
             if String.eqb url "https://example.org/a/" then
               Throw (TypeError "Failed to fetch")
             else Normal "{}"))
       ["https://example.org/a/"; EmptyString; "no-slash";
        "https://example.org/b/"])
  = ["https://example.org/a/"; "https://example.org/b/"]
  /\ map fst
       (savedOf
          (downloadFiles
             (mkNetwork (fun _ => Normal (mkApiResponse []))
                (fun url =>
                   if String.eqb url "https://example.org/a/" then
                     Throw (TypeError "Failed to fetch")
                   else Normal "{}"))
             ["https://example.org/a/"; EmptyString; "no-slash";
              "https://example.org/b/"]))
     = ["https://example.org/b/"].
Proof.
  destruct (downloadFiles_isolates_failures
              (mkNetwork (fun _ => Normal (mkApiResponse []))
                 (fun url =>
                    if String.eqb url "https://example.org/a/" then
                      Throw (TypeError "Failed to fetch")
                    else Normal "{}"))
              ["https://example.org/a/"; EmptyString; "no-slash";
               "https://example.org/b/"]) as (H1 & H2 & _).
  split; [rewrite H1 | rewrite H2]; reflexivity.
Defined.

Section ArtifactNames.

Lemma split_app (sep : ascii) (a b : string) :
  JS.split sep (a ++ String sep b) = (JS.split sep a ++ JS.split sep b)%list.
Proof.
  induction a as [|c a IH]; cbn [append JS.split].
  - now rewrite Ascii.eqb_refl.
  - rewrite IH. destruct (Ascii.eqb c sep); [reflexivity|].
    destruct (JS.split sep a) as [|p ps] eqn:Hs; [|reflexivity].
    now apply split_not_nil in Hs.
Qed.

Lemma pop_app (l1 l2 : list string) :
  l2 <> [] -> JS.pop (l1 ++ l2) = JS.pop l2.
Proof.
  intros H. induction l1 as [|x l1 IH]; [reflexivity|].
  cbn [app JS.pop]. rewrite IH.
  destruct (l1 ++ l2)%list eqn:Happ; [|reflexivity].
  apply app_eq_nil in Happ. tauto.
Qed.

Lemma pop_last (l : list string) (z : string) :
  JS.pop l = Some z -> exists l', l = (l' ++ [z])%list.
Proof.
  induction l as [|x l IH]; intros H; [discriminate H|].
  destruct l as [|y l].
  - injection H as ->. exists []. reflexivity.
  - destruct (IH H) as [l' ->]. exists (x :: l'). reflexivity.
Qed.

Lemma finalSegment_app (a b : string) :
  finalSegment (a ++ String "/" b) = finalSegment b.
Proof.
  assert (H := pop_split_finalSegment (a ++ String "/" b)).
  rewrite split_app, pop_app, pop_split_finalSegment in H
    by apply split_not_nil.
  now injection H.
Qed.

Lemma sliceLast3_app (l : list string) (z x y : string) :
  JS.sliceLast3 (l ++ [z; x; y]) = [z; x; y].
Proof.
  unfold JS.sliceLast3. rewrite length_app. cbn [List.length].
  replace (List.length l + 3 - 3) with (List.length l + 0) by lia.
  now rewrite skipn_app, Nat.add_0_r, skipn_all, Nat.sub_diag.
Qed.

Lemma upToFirstDot_app_dot (s r : string) :
  upToFirstDot (s ++ String "." r) = upToFirstDot s.
Proof.
  induction s as [|c s IH]; cbn [append upToFirstDot]; [reflexivity|].
  destruct (Ascii.eqb c "."); [reflexivity | now rewrite IH].
Qed.

Lemma includes_char_app (sep : ascii) (a b : string) :
  JS.includes (String sep EmptyString) (a ++ b)
  = JS.includes (String sep EmptyString) a
    || JS.includes (String sep EmptyString) b.
Proof.
  induction a as [|c a IH]; cbn [append].
  - now rewrite includes_char_nil.
  - now rewrite !includes_char_cons, IH, orb_assoc.
Qed.

(** The loop's turn for a URL [base/name/]. *)
Lemma downloadOne_trailing_slash (net : Network) (base name : string) :
  JS.includes "/" name = false ->
  downloadOne net (base ++ String "/" (name ++ "/"))
  = Request (base ++ String "/" (name ++ "/"))
      :: match blob net (base ++ String "/" (name ++ "/")) with
         | Normal _ =>
             [Download (base ++ String "/" (name ++ "/"))
                ("raid-" ++ finalSegment base ++ "-" ++ upToFirstDot name
                   ++ ".json")]
         | Throw _ =>
             [ConsoleError
                ("Error downloading file "
                   ++ (base ++ String "/" (name ++ "/")) ++ ":")]
         end.
Proof.
  intros Hname.
  assert (Hsplit : exists l,
             JS.split "/" (base ++ String "/" (name ++ "/"))
             = (l ++ [finalSegment base; name; EmptyString])%list).
  { destruct (pop_last _ _ (pop_split_finalSegment base)) as [l Hl].
    exists l.
    change (name ++ "/") with (name ++ String "/" EmptyString).
    rewrite !split_app, Hl, (split_without "/" name Hname), <- app_assoc.
    reflexivity. }
  destruct Hsplit as [l Hsplit].
  assert (Hfinal : finalSegment (base ++ String "/" (name ++ "/")) = EmptyString).
  { change (name ++ "/") with (name ++ String "/" EmptyString).
    now rewrite !finalSegment_app. }
  assert (Hfirst := first_split_upToFirstDot name).
  unfold downloadOne.
  replace (JS.truthy (base ++ String "/" (name ++ "/"))) with true
    by (destruct base; reflexivity).
  cbn [negb].
  rewrite pop_split_finalSegment, Hfinal, Hsplit, sliceLast3_app.
  cbn [nth_error]. cbn [nth_error] in Hfirst. rewrite Hfirst.
  destruct (blob net _); reflexivity.
Qed.

End ArtifactNames.

(** X11.  The file of a record is saved as
    [raid-<prefix>-<suffix>.json].  For a DOI [p/s] with no slash in [s],
    [prefix] is the text behind the last slash of [p] and [suffix] is [s]
    up to its first dot; for a DOI without a slash [prefix] is "raids".
    So records whose DOIs differ only behind the first dot of the last
    part, or before the last slash of the first part, are saved under the
    same name. *)
Theorem artifact_file_name (net : Network) (doi : string) :
  arrives net (artifactUrl doi) = true ->
  (forall p s,
     doi = p ++ "/" ++ s -> JS.includes "/" s = false ->
     savedOf (downloadFiles net [artifactUrl doi])
     = [(artifactUrl doi,
         "raid-" ++ finalSegment p ++ "-" ++ upToFirstDot s ++ ".json")])
  /\ (JS.includes "/" doi = false ->
      savedOf (downloadFiles net [artifactUrl doi])
      = [(artifactUrl doi, "raid-raids-" ++ upToFirstDot doi ++ ".json")]).
Proof.
  intros Harrives. unfold arrives in Harrives. split.
  - intros p s -> Hs.
    assert (Hurl : artifactUrl (p ++ "/" ++ s)
                   = ("https://static.prod.raid.org.au/raids" ++ String "/" p)
                       ++ String "/" ((s ++ ".download") ++ "/")).
    { unfold artifactUrl. cbn [append]. rewrite !append_assoc. reflexivity. }
    rewrite Hurl in *.
    unfold downloadFiles. cbn [flat_map]. rewrite app_nil_r.
    rewrite downloadOne_trailing_slash.
    + destruct (blob net _); [|discriminate Harrives].
      rewrite finalSegment_app.
      change (s ++ ".download") with (s ++ String "." "download").
      rewrite upToFirstDot_app_dot. reflexivity.
    + change (s ++ ".download") with (s ++ String "." "download").
      rewrite includes_char_app, Hs. reflexivity.
  - intros Hdoi.
    assert (Hurl : artifactUrl doi
                   = "https://static.prod.raid.org.au/raids"
                       ++ String "/" ((doi ++ ".download") ++ "/")).
    { unfold artifactUrl. cbn [append]. rewrite !append_assoc. reflexivity. }
    rewrite Hurl in *.
    unfold downloadFiles. cbn [flat_map]. rewrite app_nil_r.
    rewrite downloadOne_trailing_slash.
    + destruct (blob net _); [|discriminate Harrives].
      change (doi ++ ".download") with (doi ++ String "." "download").
      rewrite upToFirstDot_app_dot. reflexivity.
    + change (doi ++ ".download") with (doi ++ String "." "download").
      rewrite includes_char_app, Hdoi. reflexivity.
Qed.

Lemma artifact_file_name_witness :
  map snd (savedOf (downloadFiles filesArrive [artifactUrl "10.1234/abc.v1"]))
  = map snd (savedOf (downloadFiles filesArrive [artifactUrl "10.9999/10.1234/abc.v2"])).
Proof.
  destruct (artifact_file_name filesArrive "10.1234/abc.v1" eq_refl) as [H1 _].
  destruct (artifact_file_name filesArrive "10.9999/10.1234/abc.v2" eq_refl)
    as [H2 _].
  rewrite (H1 "10.1234" "abc.v1" eq_refl eq_refl).
  rewrite (H2 "10.9999/10.1234" "abc.v2" eq_refl eq_refl).
  reflexivity.
Defined.

(** ** Further properties of a session *)

Section SessionFurther.

Lemma Grows_AllArtifacts (before after : list string) :
  Grows before after -> AllArtifacts before -> AllArtifacts after.
Proof.
  intros (added & -> & Hadded) Hbefore u Hu.
  apply in_app_or in Hu. destruct Hu; auto.
Qed.

Lemma fetchable_artifactUrl (doi : string) : fetchable (artifactUrl doi) = true.
Proof.
  unfold fetchable, artifactUrl. cbn [append JS.truthy andb].
  change (".download/") with (".download" ++ "/").
  rewrite <- !append_assoc.
  change ("/") with (String "/" EmptyString).
  rewrite !includes_char_cons, includes_append_char.
  now rewrite !orb_true_r.
Qed.

Lemma filter_fetchable (set : list string) :
  AllArtifacts set -> filter fetchable set = set.
Proof.
  induction set as [|u set IH]; intros H; [reflexivity|].
  cbn [filter]. destruct (H u (or_introl eq_refl)) as [doi ->].
  rewrite fetchable_artifactUrl, IH; [reflexivity|].
  intros v Hv. apply H. now right.
Qed.

Lemma performSearch_requests (net : Network) (page : Page)
  (c : SearchCriteria) (operator : string) (url : string) :
  In url (requestsOf (snd (performSearch net page c operator))) ->
  url = requestUrl "https://api.datacite.org/dois" c operator.
Proof.
  unfold performSearch.
  destruct (container page); [|intros []].
  destruct (hasAtLeastOneCriterion c) eqn:Hvalid; cbn [negb]; [|intros []].
  rewrite (searchDois_single net c operator Hvalid).
  destruct (renderResults_files (filesToDownload page)
              (mkApiResponse
                 (data
                    (answerOf
                       (respond net
                          (requestUrl "https://api.datacite.org/dois" c
                             operator)))))
              c) as [nodes ->].
  cbn. intros [H | []]. now symmetry.
Qed.

Lemma step_requests (page : Page) (e : Event) (url : string) :
  AllArtifacts (filesToDownload page) ->
  In url (requestsOf (snd (step page e))) ->
  (exists c operator,
     url = requestUrl "https://api.datacite.org/dois" c operator)
  \/ (exists doi, url = artifactUrl doi).
Proof.
  intros Hpage Hin. destruct e as [net c operator | net]; cbn [step] in Hin.
  - left. exists c, operator. exact (performSearch_requests _ _ _ _ _ Hin).
  - right. destruct (container page) as [nodes|]; [|destruct Hin].
    destruct (hasArmedButton nodes); [|destruct Hin].
    cbn [snd] in Hin. rewrite downloadFiles_requestsOf in Hin.
    apply filter_In in Hin. apply Hpage. tauto.
Qed.

Lemma run_effects_cons (page : Page) (e : Event) (events : list Event) :
  snd (run page (e :: events))
  = (snd (step page e) ++ snd (run (fst (step page e)) events))%list.
Proof.
  cbn [run]. destruct (step page e) as [page' effects].
  cbn [fst snd]. destruct (run page' events). reflexivity.
Qed.

Lemma run_requests (events : list Event) :
  forall page url,
    AllArtifacts (filesToDownload page) ->
    In url (requestsOf (snd (run page events))) ->
    (exists c operator,
       url = requestUrl "https://api.datacite.org/dois" c operator)
    \/ (exists doi, url = artifactUrl doi).
Proof.
  induction events as [|e events IH]; intros page url Hpage Hin.
  - destruct Hin.
  - rewrite run_effects_cons, requestsOf_app in Hin.
    apply in_app_or in Hin. destruct Hin as [Hin | Hin].
    + exact (step_requests page e url Hpage Hin).
    + apply (IH (fst (step page e)) url); [|exact Hin].
      exact (Grows_AllArtifacts _ _ (step_Grows page e) Hpage).
Qed.

Lemma run_AllArtifacts (events : list Event) :
  AllArtifacts (filesToDownload (fst (run initialPage events))).
Proof.
  apply (Grows_AllArtifacts _ _ (run_Grows initialPage events)).
  intros u [].
Qed.

End SessionFurther.

(** X12.  Whatever searches are submitted and whenever the download
    button is clicked, every request of a session goes either to the
    DataCite endpoint, with a compiled query, or to the artifact URL
    [https://static.prod.raid.org.au/raids/<doi>.download/] of a record:
    no text typed into the form and no field of a record other than its
    DOI chooses another address. *)
Theorem session_requests_two_hosts (events : list Event) (url : string) :
  In url (requestsOf (snd (run initialPage events))) ->
  (exists c operator,
     url
     = "https://api.datacite.org/dois" ++ "?query=" ++ queryString c operator
         ++ "&page[size]=10000")
  \/ (exists doi,
        url = "https://static.prod.raid.org.au/raids/" ++ doi ++ ".download/").
Proof.
  intros Hin. apply (run_requests events initialPage url); [|exact Hin].
  intros u [].
Qed.

Lemma session_requests_two_hosts_witness :
  (exists c operator,
     requestUrl "https://api.datacite.org/dois" (describedBy "soil") "AND"
     = "https://api.datacite.org/dois" ++ "?query=" ++ queryString c operator
         ++ "&page[size]=10000")
  \/ (exists doi,
        requestUrl "https://api.datacite.org/dois" (describedBy "soil") "AND"
        = "https://static.prod.raid.org.au/raids/" ++ doi ++ ".download/").
Proof.
  apply (session_requests_two_hosts
           [Submit threeRecords (describedBy "soil") "AND";
            ClickDownload filesArrive]).
  left. reflexivity.
Defined.

(** X13.  A click on the download button requests every file of the set,
    once each and in the order in which the URLs entered it: the files of
    all the searches of the session so far, not only of the results on
    display. *)
Theorem click_downloads_whole_set
  (events : list Event) (net : Network) (nodes : list Node) :
  container (fst (run initialPage events)) = Some nodes ->
  hasArmedButton nodes = true ->
  requestsOf (snd (step (fst (run initialPage events)) (ClickDownload net)))
  = filesToDownload (fst (run initialPage events)).
Proof.
  intros Hnodes Harmed. cbn [step]. rewrite Hnodes, Harmed. cbn [snd].
  rewrite downloadFiles_requestsOf.
  apply filter_fetchable, run_AllArtifacts.
Qed.

Lemma click_downloads_whole_set_witness :
  requestsOf
    (snd (step
            (fst (run initialPage
                    [Submit threeRecords (describedBy "soil") "AND";
                     Submit oneRecord (describedBy "water") "AND"]))
            (ClickDownload filesArrive)))
  = [artifactUrl "10.1234/abc"; artifactUrl "10.1234/def";
     artifactUrl "10.5555/xyz"].
Proof.
  rewrite (click_downloads_whole_set
             [Submit threeRecords (describedBy "soil") "AND";
              Submit oneRecord (describedBy "water") "AND"]
             filesArrive
             [Button "download-results" "Download Results" true;
              Result
                (mkHTMLElement "search-result"
                   (resultMarkup "No Title"
                      (anchor "https://raid.org/10.5555/xyz" "10.5555/xyz")
                      "No creators" "No related identifiers" "No organisations"
                      "No Description"))]);
    reflexivity.
Defined.

(** ** The form *)

Section Form.

Lemma trimEnd_white (s : string) :
  forallb JS.isWhiteSpace (JS.chars (JS.trimEnd s))
  = forallb JS.isWhiteSpace (JS.chars s).
Proof.
  unfold JS.chars.
  induction s as [|c s IH]; [reflexivity|].
  cbn [JS.trimEnd list_ascii_of_string forallb].
  destruct (JS.trimEnd s) as [|d t] eqn:Ht.
  - rewrite <- IH. cbn [list_ascii_of_string forallb]. rewrite andb_true_r.
    destruct (JS.isWhiteSpace c) eqn:Hc; [reflexivity|].
    cbn [list_ascii_of_string forallb]. now rewrite Hc.
  - cbn [list_ascii_of_string forallb] in *. now rewrite IH.
Qed.

(** Trimming leaves a string blank or not blank as it was. *)
Lemma blank_trim (s : string) : blank (JS.trim s) <-> blank s.
Proof.
  unfold blank, JS.trim.
  rewrite <- !forallb_forall, trimEnd_white, trimStart_white. reflexivity.
Qed.

Lemma getValue_setValue_same (id value : string) (inputs : Inputs) :
  getValue id inputs <> None ->
  getValue id (setValue id value inputs) = Some (stripNewlines value).
Proof.
  induction inputs as [|[id' old] rest IH]; intros H; [now elim H|].
  cbn [getValue setValue] in *.
  destruct (String.eqb id' id) eqn:He; cbn [getValue]; rewrite He; auto.
Qed.

Lemma getValue_setValue_other (id other value : string) (inputs : Inputs) :
  other <> id ->
  getValue other (setValue id value inputs) = getValue other inputs.
Proof.
  intros Hne.
  induction inputs as [|[id' old] rest IH]; [reflexivity|].
  cbn [getValue setValue].
  destruct (String.eqb id' id) eqn:He; cbn [getValue].
  - apply String.eqb_eq in He. subst id'.
    apply not_eq_sym, String.eqb_neq in Hne. now rewrite Hne.
  - now rewrite IH.
Qed.

Lemma orElse_empty (s : string) : JS.orElse s EmptyString = s.
Proof. destruct s; reflexivity. Qed.

Lemma stripNewlines_white (s : string) :
  forallb JS.isWhiteSpace (JS.chars (stripNewlines s))
  = forallb JS.isWhiteSpace (JS.chars s).
Proof.
  unfold JS.chars.
  induction s as [|c s IH]; [reflexivity|].
  cbn [stripNewlines list_ascii_of_string forallb].
  destruct (isLineBreak c) eqn:Hc.
  - rewrite IH.
    replace (JS.isWhiteSpace c) with true; [reflexivity|].
    revert Hc. by_cases_on_ascii c.
  - cbn [list_ascii_of_string forallb]. now rewrite IH.
Qed.

(** Removing the line breaks leaves a string blank or not blank as it
    was. *)
Lemma blank_stripNewlines (s : string) : blank (stripNewlines s) <-> blank s.
Proof.
  unfold blank.
  rewrite <- !forallb_forall, stripNewlines_white. reflexivity.
Qed.

Lemma stripNewlines_none (s : string) :
  forallb (fun c => negb (isLineBreak c)) (JS.chars s) = true ->
  stripNewlines s = s.
Proof.
  unfold JS.chars.
  induction s as [|c s IH]; [reflexivity|].
  cbn [list_ascii_of_string forallb stripNewlines].
  intros H. apply andb_true_iff in H. destruct H as [Hc Hs].
  apply negb_true_iff in Hc. now rewrite Hc, (IH Hs).
Qed.

Lemma trimStart_keeps (P : ascii -> bool) (s : string) :
  forallb P (JS.chars s) = true -> forallb P (JS.chars (JS.trimStart s)) = true.
Proof.
  unfold JS.chars.
  induction s as [|c s IH]; [reflexivity|].
  cbn [JS.trimStart]. intros H.
  destruct (JS.isWhiteSpace c); [|exact H].
  cbn [list_ascii_of_string forallb] in H.
  apply andb_true_iff in H. now apply IH.
Qed.

Lemma trimEnd_keeps (P : ascii -> bool) (s : string) :
  forallb P (JS.chars s) = true -> forallb P (JS.chars (JS.trimEnd s)) = true.
Proof.
  unfold JS.chars.
  induction s as [|c s IH]; [reflexivity|].
  cbn [JS.trimEnd list_ascii_of_string forallb]. intros H.
  apply andb_true_iff in H. destruct H as [Hc Hs].
  destruct (JS.trimEnd s) as [|d t].
  - destruct (JS.isWhiteSpace c); [reflexivity|].
    cbn [list_ascii_of_string forallb]. now rewrite Hc.
  - cbn [list_ascii_of_string forallb] in *. now rewrite Hc, (IH Hs).
Qed.

(** A label without line breaks keeps none when trimmed: the input stores
    the trimmed label as it is. *)
Lemma stripNewlines_trim (label : string) :
  forallb (fun c => negb (isLineBreak c)) (JS.chars label) = true ->
  stripNewlines (JS.trim label) = JS.trim label.
Proof.
  intros H. apply stripNewlines_none. unfold JS.trim.
  now apply trimEnd_keeps, trimStart_keeps.
Qed.

Lemma exampleClick_read (inputs : Inputs) (fieldId label : string) :
  fieldId <> EmptyString ->
  getValue fieldId inputs <> None ->
  readField (exampleClick (Some fieldId) (Some label) inputs) fieldId
  = stripNewlines (JS.trim label).
Proof.
  intros Hid Hfield. apply truthy_true in Hid.
  unfold readField, exampleClick. rewrite Hid.
  destruct (getValue fieldId inputs) eqn:Hg; [|congruence].
  rewrite getValue_setValue_same by congruence.
  now rewrite !orElse_empty.
Qed.

Lemma performSearch_alert (net : Network) (page : Page) (c : SearchCriteria)
  (operator : string) :
  container page <> None ->
  hasAtLeastOneQuery c = false ->
  performSearch net page c operator
  = (page, [Alert "Please enter at least one search term"]).
Proof.
  intros Hc H. unfold performSearch.
  destruct (container page); [|congruence].
  unfold hasAtLeastOneCriterion. fold (hasAtLeastOneQuery c). now rewrite H.
Qed.

Lemma performSearch_one_request (net : Network) (page : Page)
  (c : SearchCriteria) (operator : string) :
  container page <> None ->
  hasAtLeastOneQuery c = true ->
  snd (performSearch net page c operator)
  = [Request (requestUrl "https://api.datacite.org/dois" c operator)].
Proof.
  intros Hc H. unfold performSearch.
  destruct (container page); [|congruence].
  unfold hasAtLeastOneCriterion. fold (hasAtLeastOneQuery c).
  rewrite H. cbn [negb].
  rewrite (searchDois_single net c operator H).
  destruct (renderResults_files (filesToDownload page)
              (mkApiResponse
                 (data
                    (answerOf
                       (respond net
                          (requestUrl "https://api.datacite.org/dois" c
                             operator)))))
              c) as [nodes ->].
  reflexivity.
Qed.

End Form.

(** X14.  An example button writes its label, trimmed, into the first
    input with the id its [data-field] names and into no other input; the
    text input keeps it without its line breaks, so that a label without
    line breaks is read back as the trimmed label.  The value read back is
    blank exactly when the label is.  A button without [data-field], or
    naming an input that does not exist, changes nothing. *)
Theorem exampleClick_fills_field
  (inputs : Inputs) (fieldId label : string) :
  fieldId <> EmptyString ->
  (getValue fieldId inputs <> None ->
   getValue fieldId (exampleClick (Some fieldId) (Some label) inputs)
   = Some (stripNewlines (JS.trim label))
   /\ readField (exampleClick (Some fieldId) (Some label) inputs) fieldId
      = stripNewlines (JS.trim label)
   /\ (forallb (fun c => negb (isLineBreak c)) (JS.chars label) = true ->
       readField (exampleClick (Some fieldId) (Some label) inputs) fieldId
       = JS.trim label)
   /\ (blank (readField (exampleClick (Some fieldId) (Some label) inputs) fieldId)
       <-> blank label))
  /\ (forall other,
        other <> fieldId ->
        getValue other (exampleClick (Some fieldId) (Some label) inputs)
        = getValue other inputs)
  /\ (getValue fieldId inputs = None ->
      exampleClick (Some fieldId) (Some label) inputs = inputs)
  /\ exampleClick None (Some label) inputs = inputs.
Proof.
  intros Hid. assert (Htruthy := proj2 (truthy_true fieldId) Hid).
  split; [|split; [|split]].
  - intros Hfield.
    assert (Hread := exampleClick_read inputs fieldId label Hid Hfield).
    split.
    { unfold exampleClick. rewrite Htruthy.
      destruct (getValue fieldId inputs) eqn:Hg; [|congruence].
      rewrite getValue_setValue_same by congruence.
      now rewrite orElse_empty. }
    split; [exact Hread|]. split.
    + intros Hnone. rewrite Hread. now apply stripNewlines_trim.
    + rewrite Hread, blank_stripNewlines. apply blank_trim.
  - intros other Hother. unfold exampleClick. rewrite Htruthy.
    destruct (getValue fieldId inputs); [|reflexivity].
    now apply getValue_setValue_other.
  - intros Hnone. unfold exampleClick. now rewrite Htruthy, Hnone.
  - reflexivity.
Qed.

Lemma exampleClick_fills_field_witness :
  readCriteria (exampleClick (Some "creator-search") (Some "  Jane Doe ") emptyForm)
  = mkSearchCriteria EmptyString EmptyString "Jane Doe" EmptyString EmptyString
  /\ readField
       (exampleClick (Some "title-search")
          (Some (" soil" ++ JS.nl ++ " data ")) emptyForm)
       "title-search"
     = "soil data".
Proof.
  destruct (exampleClick_fills_field emptyForm "creator-search" "  Jane Doe ")
    as ((_ & _ & Hread & _) & Hother & _); [discriminate | discriminate |].
  destruct (exampleClick_fills_field emptyForm "title-search"
              (" soil" ++ JS.nl ++ " data "))
    as ((_ & Hstripped & _) & _); [discriminate | discriminate |].
  split.
  - unfold readCriteria. rewrite Hread by reflexivity.
    unfold readField.
    rewrite !Hother by discriminate.
    reflexivity.
  - rewrite Hstripped. reflexivity.
Defined.

(** X15.  Submitting the form.  An input that is missing from the page
    counts as empty; when each of the five inputs is missing or blank the
    action raises the alert and sends nothing.  After a click on an example
    button for one of the five inputs, with a label that is not blank, the
    action sends exactly one request: the compiled query of the form as it
    then stands (the label trimmed and without its line breaks in that
    field), with "AND" as operator when no operator is checked. *)
Theorem submit_reads_form
  (inputs : Inputs) (checked : option string) (net : Network) (page : Page) :
  container page <> None ->
  ((forall id, In id criteriaFields -> blank (readField inputs id)) ->
   submit inputs checked net page
   = (page, [Alert "Please enter at least one search term"]))
  /\ (forall fieldId label,
        In fieldId criteriaFields ->
        getValue fieldId inputs <> None ->
        ~ blank label ->
        readField (exampleClick (Some fieldId) (Some label) inputs) fieldId
        = stripNewlines (JS.trim label)
        /\ snd (submit (exampleClick (Some fieldId) (Some label) inputs) checked
                  net page)
           = [Request
                (requestUrl "https://api.datacite.org/dois"
                   (readCriteria (exampleClick (Some fieldId) (Some label) inputs))
                   (readOperator checked))])
  /\ readOperator None = "AND".
Proof.
  intros Hc. split; [|split; [|reflexivity]].
  - intros Hblank. unfold submit. apply performSearch_alert; [exact Hc|].
    apply all_blank_no_query. unfold readCriteria, values. cbn.
    repeat constructor; apply Hblank; cbn; tauto.
  - intros fieldId label Hin Hfield Hlabel.
    assert (Hvalue : readField
                       (exampleClick (Some fieldId) (Some label) inputs) fieldId
                     = stripNewlines (JS.trim label)).
    { apply exampleClick_read; [|exact Hfield].
      intros ->. cbn in Hin. intuition discriminate. }
    split; [exact Hvalue|].
    unfold submit.
    apply performSearch_one_request; [exact Hc|].
    apply hasAtLeastOneQuery_iff.
    assert (Hread : ~ blank (readField
                               (exampleClick (Some fieldId) (Some label) inputs)
                               fieldId)).
    { rewrite Hvalue. now rewrite blank_stripNewlines, blank_trim. }
    unfold readCriteria, values. cbn [title description creator related organisation].
    cbn in Hin.
    destruct Hin as [<- | [<- | [<- | [<- | [<- | []]]]]].
    + apply Exists_cons_hd. exact Hread.
    + apply Exists_cons_tl, Exists_cons_hd. exact Hread.
    + do 2 apply Exists_cons_tl. apply Exists_cons_hd. exact Hread.
    + do 3 apply Exists_cons_tl. apply Exists_cons_hd. exact Hread.
    + do 4 apply Exists_cons_tl. apply Exists_cons_hd. exact Hread.
Qed.

Lemma submit_reads_form_witness :
  submit [("title-search", "  "); ("creator-search", EmptyString)] None
    threeRecords resultsPage
  = (resultsPage, [Alert "Please enter at least one search term"])
  /\ snd (submit (exampleClick (Some "title-search") (Some " soil ") emptyForm)
            None threeRecords resultsPage)
     = [Request
          ("https://api.datacite.org/dois?query="
             ++ "(identifiers.identifier:*raid.org.au* AND (titles.title:*soil*))"
             ++ "&page[size]=10000")]
  /\ snd (submit
            (exampleClick (Some "title-search")
               (Some (" soil" ++ JS.nl ++ " data ")) emptyForm)
            (Some "OR") threeRecords resultsPage)
     = [Request
          ("https://api.datacite.org/dois?query="
             ++ "(identifiers.identifier:*raid.org.au* AND (titles.title:*soil%20data*))"
             ++ "&page[size]=10000")].
Proof.
  destruct (submit_reads_form [("title-search", "  "); ("creator-search", EmptyString)]
              None threeRecords resultsPage) as (Halert & _); [discriminate|].
  destruct (submit_reads_form emptyForm None threeRecords resultsPage)
    as (_ & Hone & _); [discriminate|].
  destruct (submit_reads_form emptyForm (Some "OR") threeRecords resultsPage)
    as (_ & Hbroken & _); [discriminate|].
  split; [|split].
  - apply Halert. intros id Hin. cbn in Hin.
    repeat (destruct Hin as [<- | Hin];
            [intros ch Hch; cbn in Hch;
             repeat (destruct Hch as [<- | Hch]; [reflexivity|]); destruct Hch|]).
    destruct Hin.
  - destruct (Hone "title-search" " soil ") as [_ ->].
    + now left.
    + discriminate.
    + intros Hb. discriminate (Hb "s"%char (or_intror (or_introl eq_refl))).
    + reflexivity.
  - destruct (Hbroken "title-search" (" soil" ++ JS.nl ++ " data ")) as [_ ->].
    + now left.
    + discriminate.
    + intros Hb. discriminate (Hb "s"%char (or_intror (or_introl eq_refl))).
    + reflexivity.
Defined.
